(** * TwitterConnection: a shallow embedding of
      src/connections/twitter_connection.py

    The adapter talks to three things outside the process: the process
    environment together with the '.env' file, the console, and the remote
    platform reached through the HTTP and OAuth libraries.  All three are
    made explicit here: the first two are fields of the [World] the methods
    thread through, the third is an oracle ([Remote]) that answers every
    call from the history of calls issued so far.  Every call handed to a
    library is appended to the world's [trace], so that "issues no network
    call" is simply "leaves the trace unchanged". *)

From Stdlib Require Import ZArith String Ascii List Bool Lia DecimalString.
From stdpp Require Import base option gmap strings list fin_maps.
Import ListNotations.

Set Warnings "-register-all".
Local Open Scope string_scope.
Local Open Scope Z_scope.

(** ** Python values *)

(** The values that flow through the adapter: decoded JSON bodies, request
    parameters and return values.  JSON numbers are integers here (the
    platform's payloads carry ids as strings and counters as integers);
    a JSON object is an association list, first binding wins.  A str is
    the [string] of the bytes of its UTF-8 encoding: two str are equal
    when their encodings are, and what Python does per character (len,
    indexing, iteration) goes by code point, see [len] and [chars]. *)
Inductive pyval :=
| PNone
| PBool (b : bool)
| PInt (z : Z)
| PStr (s : string)
| PList (l : list pyval)
| PDict (d : list (string * pyval)).

(** Exceptions.  [Other] stands for a class defined by a library
    (requests, requests_oauthlib, tweepy, json); its flag tells whether the
    class derives from ValueError, which is what [except ValueError]
    tests.  Every class here derives from Exception. *)
Inductive exc_class :=
| Exception_
| ValueError_
| TypeError_
| KeyError_
| AttributeError_
| EOFError_
| Other (name : string) (derives_ValueError : bool).

Record exn := Exn { exc_cls : exc_class; exc_str : string }.

Definition is_ValueError (e : exn) : bool :=
  match exc_cls e with
  | ValueError_ => true
  | Other _ b => b
  | _ => false
  end.

Inductive result (A : Type) :=
| Ret (a : A)
| Raise (e : exn).
Arguments Ret {A} a.
Arguments Raise {A} e.

(** ** Sessions, requests and the remote side *)

(** OAuth1Session(client_key, client_secret=..., resource_owner_key=...,
    resource_owner_secret=..., verifier=...).  The arguments come from
    [os.getenv] and [dict.get], hence the options (None when absent). *)
Record OAuth1Session := {
  client_key : option string;
  client_secret : option string;
  resource_owner_key : option string;
  resource_owner_secret : option string;
  verifier : option string
}.

(** The URLs the adapter requests.  The two f-string URLs keep the value
    they interpolate. *)
Inductive url :=
| users_by                          (* https://api.twitter.com/2/users/by *)
| user_tweets (user_id : pyval)     (* https://api.twitter.com/2/users/{user_id}/tweets *)
| tweets                            (* https://api.twitter.com/2/tweets *)
| reverse_chronological (user_id : string)
                                    (* .../2/users/{user_id}/timelines/reverse_chronological *)
| likes (user_id : string).         (* https://api.twitter.com/2/users/{user_id}/likes *)

Inductive call :=
| GET (s : OAuth1Session) (u : url) (params : list (string * pyval))
| POST (s : OAuth1Session) (u : url) (json : pyval)
| fetch_request_token (s : OAuth1Session) (u : string)
| fetch_access_token (s : OAuth1Session) (u : string)
| get_me (consumer_key consumer_secret access_token access_token_secret : option string).
                                    (* tweepy.Client(...).get_me() *)

Record Response := {
  status_code : Z;
  text : string;
  json : result pyval      (* response.json(): the decoded body, or the decoder's exception *)
}.

(** What lies outside the repository: the platform behind the HTTP and
    OAuth libraries, tweepy's client, and two helpers that only print.
    Each answer may depend on every call issued before. *)
Record Remote := {
  http : list call -> call -> result Response;
  token_endpoint : list call -> call -> result (list (string * string));
  tweepy_get_me : list call -> call -> result unit;
  authorization_url : OAuth1Session -> string -> string;
  h_bar : string                                     (* what print_h_bar() prints *)
}.

(** ** The world *)

Record World := {
  environ : gmap string string;            (* os.environ *)
  dotenv : option (gmap string string);    (* the bindings of '.env'; None: no such file *)
  _oauth_session : option OAuth1Session;   (* self._oauth_session *)
  trace : list call;                       (* calls issued so far, oldest first *)
  stdin : list string;                     (* lines input() will read *)
  stdout : list string                     (* what print() wrote, oldest first *)
}.

Definition M (A : Type) : Type := World -> result A * World.

Definition ret {A} (a : A) : M A := fun w => (Ret a, w).
Definition raise {A} (e : exn) : M A := fun w => (Raise e, w).
Definition bind {A B} (m : M A) (k : A -> M B) : M B :=
  fun w => match m w with
           | (Ret a, w') => k a w'
           | (Raise e, w') => (Raise e, w')
           end.
(** try: m / except Exception as e: h e *)
Definition try_except {A} (m : M A) (h : exn -> M A) : M A :=
  fun w => match m w with
           | (Ret a, w') => (Ret a, w')
           | (Raise e, w') => h e w'
           end.
Definition lift {A} (r : result A) : M A := fun w => (r, w).

Notation "x <- m ;; k" := (bind m (fun x => k))
  (at level 100, m at next level, right associativity).
Notation "m ;;; k" := (bind m (fun _ => k))
  (at level 100, right associativity).

(** A second bind, for the pure steps that can raise. *)
Definition rbind {A B} (r : result A) (k : A -> result B) : result B :=
  match r with
  | Ret a => k a
  | Raise e => Raise e
  end.
Notation "x <~ r ;; k" := (rbind r (fun x => k))
  (at level 100, r at next level, right associativity).

(** try: m / except C: h -- catches only the exceptions [catches] accepts *)
Definition try_except_only {A} (catches : exn -> bool) (m : M A) (h : exn -> M A) : M A :=
  fun w => match m w with
           | (Ret a, w') => (Ret a, w')
           | (Raise e, w') => if catches e then h e w' else (Raise e, w')
           end.

Definition set_environ (env : gmap string string) (w : World) : World :=
  {| environ := env; dotenv := dotenv w; _oauth_session := _oauth_session w;
     trace := trace w; stdin := stdin w; stdout := stdout w |}.
Definition set_dotenv (f : option (gmap string string)) (w : World) : World :=
  {| environ := environ w; dotenv := f; _oauth_session := _oauth_session w;
     trace := trace w; stdin := stdin w; stdout := stdout w |}.
Definition set_oauth_session (s : option OAuth1Session) (w : World) : World :=
  {| environ := environ w; dotenv := dotenv w; _oauth_session := s;
     trace := trace w; stdin := stdin w; stdout := stdout w |}.
Definition set_trace (t : list call) (w : World) : World :=
  {| environ := environ w; dotenv := dotenv w; _oauth_session := _oauth_session w;
     trace := t; stdin := stdin w; stdout := stdout w |}.
Definition set_stdin (i : list string) (w : World) : World :=
  {| environ := environ w; dotenv := dotenv w; _oauth_session := _oauth_session w;
     trace := trace w; stdin := i; stdout := stdout w |}.
Definition set_stdout (o : list string) (w : World) : World :=
  {| environ := environ w; dotenv := dotenv w; _oauth_session := _oauth_session w;
     trace := trace w; stdin := stdin w; stdout := o |}.

(** ** The primitives the adapter calls *)

(** os.getenv(key) *)
Definition getenv (key : string) : M (option string) :=
  fun w => (Ret (environ w !! key), w).

(** load_dotenv(): every binding of '.env' whose key os.environ lacks is
    added to os.environ (override=False); nothing happens without a file.
    The file is held as the bindings it gives on reading.  python-dotenv
    expands ${NAME} inside a value when it reads; that expansion is not
    modelled, so set_key followed by load_dotenv is exact only for values
    without such a reference. *)
Definition load_dotenv : M unit :=
  fun w => (Ret tt, match dotenv w with
                    | Some f => set_environ (environ w ∪ f) w
                    | None => w
                    end).

(** os.path.exists('.env') *)
Definition path_exists_dotenv : M bool :=
  fun w => (Ret (bool_decide (is_Some (dotenv w))), w).

(** with open('.env', 'w') as f: f.write('') *)
Definition create_dotenv : M unit :=
  fun w => (Ret tt, set_dotenv (Some ∅) w).

(** set_key('.env', key, value) of python-dotenv, with its default
    quote_mode: the value is quoted through [value.replace], so anything
    but a str raises AttributeError before the file is touched; a str
    replaces the binding of [key] or adds one (the file is created when
    it is missing). *)
Definition type_name (v : pyval) : string :=
  match v with
  | PNone => "NoneType"
  | PBool _ => "bool"
  | PInt _ => "int"
  | PStr _ => "str"
  | PList _ => "list"
  | PDict _ => "dict"
  end.

Definition no_attribute (v : pyval) (attr : string) : exn :=
  Exn AttributeError_ ("'" ++ type_name v ++ "' object has no attribute '" ++ attr ++ "'").

Definition set_key (key : string) (value : pyval) : M unit :=
  match value with
  | PStr s => fun w => (Ret tt, set_dotenv (Some (<[key := s]> (default ∅ (dotenv w)))) w)
  | _ => raise (no_attribute value "replace")
  end.

Definition print (line : string) : M unit :=
  fun w => (Ret tt, set_stdout (stdout w ++ [line]) w).

(** input(prompt): EOFError once the input is exhausted *)
Definition input (prompt : string) : M string :=
  fun w => match stdin w with
           | line :: rest => (Ret line, set_stdin rest (set_stdout (stdout w ++ [prompt]) w))
           | [] => (Raise (Exn EOFError_ "EOF when reading a line"),
                    set_stdout (stdout w ++ [prompt]) w)
           end.

(** ** Python's dynamic operations on values *)

(** The bytes 10xxxxxx, which continue a code point in UTF-8. *)
Definition continuation (c : ascii) : bool :=
  let n := nat_of_ascii c in ((128 <=? n) && (n <? 192))%nat.

(** len(s): the number of code points, one per byte that is not a
    continuation. *)
Fixpoint len (s : string) : nat :=
  match s with
  | EmptyString => 0%nat
  | String c s' => if continuation c then len s' else S (len s')
  end.

(** The characters of s, each the bytes of one code point. *)
Fixpoint chars (s : string) : list string :=
  match s with
  | EmptyString => []
  | String c s' =>
      match chars s' with
      | first :: rest =>
          if match s' with String c' _ => continuation c' | EmptyString => false end
          then String c first :: rest
          else String c EmptyString :: first :: rest
      | [] => [String c EmptyString]
      end
  end.

(** bool(v) *)
Definition truthy (v : pyval) : bool :=
  match v with
  | PNone => false
  | PBool b => b
  | PInt z => negb (z =? 0)
  | PStr s => negb (String.eqb s "")
  | PList l => match l with [] => false | _ => true end
  | PDict d => match d with [] => false | _ => true end
  end.

(** bool(v) for the Optional[str] that os.getenv and dict.get return *)
Definition truthy_str (o : option string) : bool :=
  match o with
  | Some s => negb (String.eqb s "")
  | None => false
  end.

(** all([...]) over such values *)
Definition all (l : list (option string)) : bool := forallb truthy_str l.

Definition of_optional (o : option string) : pyval :=
  match o with
  | Some s => PStr s
  | None => PNone
  end.

Fixpoint assoc {A} (k : string) (d : list (string * A)) : option A :=
  match d with
  | [] => None
  | (k', v) :: d' => if String.eqb k k' then Some v else assoc k d'
  end.

(** d[k] = v on a dict: the binding is replaced where it stands, or added
    at the end. *)
Fixpoint dict_set {A} (k : string) (v : A) (d : list (string * A)) : list (string * A) :=
  match d with
  | [] => [(k, v)]
  | (k', v') :: d' => if String.eqb k k' then (k, v) :: d' else (k', v') :: dict_set k v d'
  end.

(** v.get(k, default) *)
Definition py_get (v : pyval) (k : string) (dflt : pyval) : result pyval :=
  match v with
  | PDict d => Ret (default dflt (assoc k d))
  | _ => Raise (no_attribute v "get")
  end.

(** v[k] for a str key k *)
Definition getitem_str (v : pyval) (k : string) : result pyval :=
  match v with
  | PDict d => match assoc k d with
               | Some x => Ret x
               | None => Raise (Exn KeyError_ ("'" ++ k ++ "'"))
               end
  | PList _ => Raise (Exn TypeError_ "list indices must be integers or slices, not str")
  | PStr _ => Raise (Exn TypeError_ "string indices must be integers, not 'str'")
  | _ => Raise (Exn TypeError_ ("'" ++ type_name v ++ "' object is not subscriptable"))
  end.

(** v[0] *)
Definition getitem_0 (v : pyval) : result pyval :=
  match v with
  | PList (x :: _) => Ret x
  | PList [] => Raise (Exn (Other "IndexError" false) "list index out of range")
  | PStr s => match chars s with
              | first :: _ => Ret (PStr first)
              | [] => Raise (Exn (Other "IndexError" false) "string index out of range")
              end
  | PDict _ => Raise (Exn KeyError_ "0")
  | _ => Raise (Exn TypeError_ ("'" ++ type_name v ++ "' object is not subscriptable"))
  end.

(** s.lower(), on the ASCII letters *)
Definition lower_ascii (c : ascii) : ascii :=
  let n := nat_of_ascii c in
  if ((65 <=? n) && (n <=? 90))%nat then ascii_of_nat (n + 32) else c.

Fixpoint lower (s : string) : string :=
  match s with
  | EmptyString => EmptyString
  | String c s' => String (lower_ascii c) (lower s')
  end.

(** str(z) *)
Definition str_of_Z (z : Z) : string := NilZero.string_of_int (Z.to_int z).

(** for x in v *)
Definition py_iter (v : pyval) : result (list pyval) :=
  match v with
  | PList l => Ret l
  | PStr s => Ret (map PStr (chars s))
  | PDict d => Ret (map (fun kv => PStr (fst kv)) d)
  | _ => Raise (Exn TypeError_ ("'" ++ type_name v ++ "' object is not iterable"))
  end.

(** v[k] = x for a str key k *)
Definition setitem_str (v : pyval) (k : string) (x : pyval) : result pyval :=
  match v with
  | PDict d => Ret (PDict (dict_set k x d))
  | _ => Raise (Exn TypeError_ ("'" ++ type_name v ++ "' object does not support item assignment"))
  end.

(** Keys of a Python dict: the hashable values up to [==].  True and 1
    (False and 0) are one key; lists and dicts cannot be keys. *)
Inductive hkey :=
| KNone
| KNum (z : Z)
| KStr (s : string).

#[global] Instance hkey_eq_dec : EqDecision hkey.
Proof. solve_decision. Defined.

#[global] Instance hkey_countable : Countable hkey.
Proof.
  refine (inj_countable'
            (fun k => match k with
                      | KNone => inl tt
                      | KNum z => inr (inl z)
                      | KStr s => inr (inr s)
                      end)
            (fun x => match x with
                      | inl _ => KNone
                      | inr (inl z) => KNum z
                      | inr (inr s) => KStr s
                      end) _).
  intros []; reflexivity.
Defined.

Definition hash_key (v : pyval) : result hkey :=
  match v with
  | PNone => Ret KNone
  | PBool b => Ret (KNum (if b then 1 else 0))
  | PInt z => Ret (KNum z)
  | PStr s => Ret (KStr s)
  | _ => Raise (Exn TypeError_ ("unhashable type: '" ++ type_name v ++ "'"))
  end.

(** A loop whose body can raise: the first exception ends it. *)
Fixpoint for_each {A B} (body : A -> result B) (l : list A) : result (list B) :=
  match l with
  | [] => Ret []
  | x :: l' => y <~ body x;; ys <~ for_each body l';; Ret (y :: ys)
  end.

(** ** The timeline join of read_timeline *)

(** One step of
    {user['id']: {'name': user['name'], 'username': user['username']} for user in user_info} *)
Definition user_entry (user : pyval) : result (hkey * (pyval * pyval)) :=
  id <~ getitem_str user "id";;
  name <~ getitem_str user "name";;
  username <~ getitem_str user "username";;
  k <~ hash_key id;;
  Ret (k, (name, username)).

Fixpoint build_user_dict (user_info : list pyval) (acc : gmap hkey (pyval * pyval))
  : result (gmap hkey (pyval * pyval)) :=
  match user_info with
  | [] => Ret acc
  | user :: rest => e <~ user_entry user;; build_user_dict rest (<[fst e := snd e]> acc)
  end.

(** The body of [for tweet in tweets] *)
Definition add_author (user_dict : gmap hkey (pyval * pyval)) (tweet : pyval) : result pyval :=
  author_id <~ getitem_str tweet "author_id";;
  k <~ hash_key author_id;;
  match user_dict !! k with
  | Some (name, username) =>
      t <~ setitem_str tweet "author_name" name;;
      setitem_str t "author_username" username
  | None =>
      t <~ setitem_str tweet "author_name" (PStr "Unknown");;
      setitem_str t "author_username" (PStr "Unknown")
  end.

(** Everything read_timeline does with the decoded body. *)
Definition join_authors (json_response : pyval) : result pyval :=
  tweets <~ py_get json_response "data" (PList []);;
  includes <~ py_get json_response "includes" (PDict []);;
  user_info <~ py_get includes "users" (PList []);;
  users <~ py_iter user_info;;
  user_dict <~ build_user_dict users ∅;;
  items <~ py_iter tweets;;
  items' <~ for_each (add_author user_dict) items;;
  Ret (match tweets with
       | PList _ => PList items'
       | _ => tweets
       end).

(** ** The adapter *)

Section TwitterConnection.

Variable R : Remote.

(** A call handed to a library: answered from the history, then recorded. *)
Definition issue {A} (answer : list call -> call -> result A) (c : call) : M A :=
  fun w => (answer (trace w) c, set_trace (trace w ++ [c]) w).

Definition request_error (response : Response) : exn :=
  Exn Exception_ ("Request returned an error: " ++ str_of_Z (status_code response)
                  ++ " " ++ text response).

Definition get_oauth_session : M (option OAuth1Session) :=
  fun w => (Ret (_oauth_session w), w).
Definition put_oauth_session (s : OAuth1Session) : M unit :=
  fun w => (Ret tt, set_oauth_session (Some s) w).

Definition _get_oauth : M OAuth1Session :=
  cached <- get_oauth_session;;
  match cached with
  | Some session => ret session
  | None =>
      load_dotenv;;;
      consumer_key <- getenv "TWITTER_CONSUMER_KEY";;
      consumer_secret <- getenv "TWITTER_CONSUMER_SECRET";;
      access_token <- getenv "TWITTER_ACCESS_TOKEN";;
      access_token_secret <- getenv "TWITTER_ACCESS_TOKEN_SECRET";;
      if negb (all [consumer_key; consumer_secret; access_token; access_token_secret])
      then raise (Exn ValueError_ "Missing required Twitter credentials in environment")
      else
        let session := {| client_key := consumer_key;
                          client_secret := consumer_secret;
                          resource_owner_key := access_token;
                          resource_owner_secret := access_token_secret;
                          verifier := None |} in
        put_oauth_session session;;;
        ret session
  end.

Definition get_user_id_from_username (username : string) : M pyval :=
  let params := [("usernames", PStr username)] in
  session <- _get_oauth;;
  response <- issue (http R) (GET session users_by params);;
  if negb (status_code response =? 200)
  then raise (request_error response)
  else
    json_response <- lift (json response);;
    data <- lift (py_get json_response "data" PNone);;
    if negb (truthy data)
    then raise (Exn Exception_ ("No user found for username: " ++ username))
    else lift (data <~ getitem_str json_response "data";;
               first <~ getitem_0 data;;
               getitem_str first "id").

Definition get_latest_tweets (username : string) (count : Z) : M pyval :=
  user_id <- try_except (get_user_id_from_username username)
               (fun e => raise (Exn Exception_ ("Failed to get user ID for username "
                                                ++ username ++ ": " ++ exc_str e)));;
  let params := [("tweet.fields", PStr "created_at,public_metrics,text");
                 ("max_results", PInt (Z.min count 100));
                 ("exclude", PStr "retweets,replies")] in
  session <- _get_oauth;;
  response <- issue (http R) (GET session (user_tweets user_id) params);;
  if negb (status_code response =? 200)
  then raise (request_error response)
  else
    json_response <- lift (json response);;
    lift (py_get json_response "data" (PList [])).

Definition post_tweet (message : string) : M pyval :=
  if (280 <? len message)%nat
  then raise (Exn ValueError_ "Tweet exceeds 280 character limit")
  else
    session <- _get_oauth;;
    response <- issue (http R) (POST session tweets (PDict [("text", PStr message)]));;
    if negb (status_code response =? 201)
    then raise (request_error response)
    else lift (json response).

Definition like_tweet (tweet_id : string) : M pyval :=
  user_id <- getenv "TWITTER_USER_ID";;
  match user_id with
  | Some uid =>
      if String.eqb uid ""
      then raise (Exn ValueError_ "TWITTER_USER_ID not found in environment variables.")
      else
        session <- _get_oauth;;
        response <- issue (http R) (POST session (likes uid) (PDict [("tweet_id", PStr tweet_id)]));;
        if negb (status_code response =? 200)
        then raise (request_error response)
        else lift (json response)
  | None => raise (Exn ValueError_ "TWITTER_USER_ID not found in environment variables.")
  end.

Definition read_timeline (count : Z) : M pyval :=
  user_id <- getenv "TWITTER_USER_ID";;
  match user_id with
  | Some uid =>
      if String.eqb uid ""
      then raise (Exn ValueError_ "TWITTER_USER_ID not found in environment variables.")
      else
        let params := [("tweet.fields", PStr "created_at,author_id,attachments");
                       ("expansions", PStr "author_id");
                       ("user.fields", PStr "name,username");
                       ("max_results", PInt count)] in
        session <- _get_oauth;;
        response <- issue (http R) (GET session (reverse_chronological uid) params);;
        if negb (status_code response =? 200)
        then raise (request_error response)
        else
          json_response <- lift (json response);;
          lift (join_authors json_response)
  | None => raise (Exn ValueError_ "TWITTER_USER_ID not found in environment variables.")
  end.

(** *** Dispatch *)

(** The keyword arguments of perform_action, typed as the registry
    declares them ("str", "int").  A handler picks the names of its own
    parameters; its [**kwargs] swallows the rest. *)
Record Kwargs := {
  kw_username : option string;
  kw_count : option Z;
  kw_message : option string;
  kw_tweet_id : option string
}.

Definition missing_argument (func name : string) : exn :=
  Exn TypeError_ ("TwitterConnection." ++ func
                  ++ "() missing 1 required positional argument: '" ++ name ++ "'").

Record Action := {
  func : Kwargs -> M pyval;
  args : list (string * string)
}.

(** self.actions, as __init__ builds it *)
Definition actions : list (string * Action) :=
  [ ("get-latest-tweets",
     {| func := fun kwargs =>
                  match kw_username kwargs with
                  | Some username => get_latest_tweets username (default 10 (kw_count kwargs))
                  | None => raise (missing_argument "get_latest_tweets" "username")
                  end;
        args := [("username", "str"); ("count", "int")] |});
    ("post-tweet",
     {| func := fun kwargs =>
                  match kw_message kwargs with
                  | Some message => post_tweet message
                  | None => raise (missing_argument "post_tweet" "message")
                  end;
        args := [("message", "str")] |});
    ("read-timeline",
     {| func := fun kwargs => read_timeline (default 10 (kw_count kwargs));
        args := [("count", "int")] |});
    ("like-tweet",
     {| func := fun kwargs =>
                  match kw_tweet_id kwargs with
                  | Some tweet_id => like_tweet tweet_id
                  | None => raise (missing_argument "like_tweet" "tweet_id")
                  end;
        args := [("tweet_id", "str")] |}) ].

Definition perform_action (action_name : string) (kwargs : Kwargs) : M pyval :=
  match assoc action_name actions with
  | Some action => func action kwargs
  | None => raise (Exn Exception_ ("Unknown action: " ++ action_name))
  end.

(** *** Credential check and interactive setup

    The console texts are the source's, without the leading line breaks
    and pictographs. *)

Definition is_configured (verbose : bool) : M bool :=
  present <- path_exists_dotenv;;
  if negb present then ret false
  else
    try_except
      (load_dotenv;;;
       consumer_key <- getenv "TWITTER_CONSUMER_KEY";;
       consumer_secret <- getenv "TWITTER_CONSUMER_SECRET";;
       access_token <- getenv "TWITTER_ACCESS_TOKEN";;
       access_token_secret <- getenv "TWITTER_ACCESS_TOKEN_SECRET";;
       user_id <- getenv "TWITTER_USER_ID";;
       if negb (all [consumer_key; consumer_secret; access_token; access_token_secret; user_id])
       then ret false
       else
         issue (tweepy_get_me R)
               (get_me consumer_key consumer_secret access_token access_token_secret);;;
         ret true)
      (fun e =>
         (if verbose
          then print ("There was an error validating your Twitter credentials: " ++ exc_str e)
          else ret tt);;;
         ret false).

Definition request_token_url : string :=
  "https://api.twitter.com/oauth/request_token?oauth_callback=oob&x_auth_access_type=write".
Definition base_authorization_url : string := "https://api.twitter.com/oauth/authorize".
Definition access_token_url : string := "https://api.twitter.com/oauth/access_token".

(** configure is one long method; it is cut here along its own comments
    into the phases it runs in sequence. *)

(** Lines 149-173: the check of an existing configuration and the three
    prompts.  None is the [return] taken when the user declines. *)
Definition prompt_credentials : M (option (string * string * string)) :=
  print "TWITTER AUTHENTICATION SETUP";;;
  configured <- is_configured false;;
  proceed <- (if configured
              then
                print "Twitter API is already configured.";;;
                response <- input "Do you want to reconfigure? (y/n): ";;
                ret (String.eqb (lower response) "y")
              else ret true);;
  if negb proceed then ret None
  else
    print "To get your Twitter API credentials:";;;
    print "1. Go to https://developer.twitter.com/en/portal/dashboard";;;
    print "2. Create a new project and app if you haven't already";;;
    print "3. In your app settings, enable OAuth 1.0a with read and write permissions";;;
    print "4. Get your API Key (consumer key) and API Key Secret (consumer secret)";;;
    print (h_bar R);;;
    print "Please enter your Twitter API credentials:";;;
    username <- input "Enter your Twitter username (without @): ";;
    consumer_key <- input "Enter your API Key (consumer key): ";;
    consumer_secret <- input "Enter your API Key Secret (consumer secret): ";;
    print "Starting OAuth authentication process...";;;
    ret (Some (username, consumer_key, consumer_secret)).

(** Lines 176-219: request token, authorization, access token; the new
    session is stored in self._oauth_session.  None is the [return] of
    the inner [except ValueError]. *)
Definition exchange_tokens (consumer_key consumer_secret : string)
  : M (option (option string * option string)) :=
  let oauth := {| client_key := Some consumer_key; client_secret := Some consumer_secret;
                  resource_owner_key := None; resource_owner_secret := None;
                  verifier := None |} in
  fetched <- try_except_only is_ValueError
               (fetch_response <- issue (token_endpoint R)
                                        (fetch_request_token oauth request_token_url);;
                ret (Some fetch_response))
               (fun _ =>
                  print "Error: There may be an issue with your consumer key or secret.";;;
                  ret None);;
  match fetched with
  | None => ret None
  | Some fetch_response =>
      let resource_owner_key := assoc "oauth_token" fetch_response in
      let resource_owner_secret := assoc "oauth_token_secret" fetch_response in
      (* fetch_request_token left the token it received in [oauth] *)
      let authorization_url :=
        authorization_url R
          {| client_key := Some consumer_key; client_secret := Some consumer_secret;
             resource_owner_key := resource_owner_key;
             resource_owner_secret := resource_owner_secret;
             verifier := None |}
          base_authorization_url in
      print "1. Please visit this URL to authorize the application:";;;
      print authorization_url;;;
      print "2. After authorizing, Twitter will give you a PIN code.";;;
      verifier <- input "3. Please enter the PIN code here: ";;
      let oauth := {| client_key := Some consumer_key; client_secret := Some consumer_secret;
                      resource_owner_key := resource_owner_key;
                      resource_owner_secret := resource_owner_secret;
                      verifier := Some verifier |} in
      oauth_tokens <- issue (token_endpoint R) (fetch_access_token oauth access_token_url);;
      let access_token := assoc "oauth_token" oauth_tokens in
      let access_token_secret := assoc "oauth_token_secret" oauth_tokens in
      put_oauth_session {| client_key := Some consumer_key;
                           client_secret := Some consumer_secret;
                           resource_owner_key := access_token;
                           resource_owner_secret := access_token_secret;
                           verifier := None |};;;
      ret (Some (access_token, access_token_secret))
  end.

(** Lines 221-227: the numeric id of the user, or the username itself
    when the lookup raises. *)
Definition resolve_user_id (username : string) : M pyval :=
  try_except (get_user_id_from_username username)
    (fun e =>
       print ("Error getting user ID: " ++ exc_str e);;;
       print "Using username as fallback...";;;
       ret (PStr username)).

(** Lines 229-239: the six writes. *)
Definition save_credentials (username : string) (user_id : pyval)
    (consumer_key consumer_secret : string) (access_token access_token_secret : option string)
  : M unit :=
  present <- path_exists_dotenv;;
  (if negb present then create_dotenv else ret tt);;;
  set_key "TWITTER_USERNAME" (PStr username);;;
  set_key "TWITTER_USER_ID" user_id;;;
  set_key "TWITTER_CONSUMER_KEY" (PStr consumer_key);;;
  set_key "TWITTER_CONSUMER_SECRET" (PStr consumer_secret);;;
  set_key "TWITTER_ACCESS_TOKEN" (of_optional access_token);;;
  set_key "TWITTER_ACCESS_TOKEN_SECRET" (of_optional access_token_secret).

(** The body of the outer [try] (lines 176-242). *)
Definition oauth_handshake (username consumer_key consumer_secret : string) : M unit :=
  tokens <- exchange_tokens consumer_key consumer_secret;;
  match tokens with
  | None => ret tt
  | Some (access_token, access_token_secret) =>
      user_id <- resolve_user_id username;;
      save_credentials username user_id consumer_key consumer_secret
                       access_token access_token_secret;;;
      print "Twitter authentication successfully set up!";;;
      print "Your API keys, secrets, username, and user ID have been stored in the .env file."
  end.

Definition setup_failed (e : exn) : M unit :=
  print ("An error occurred during setup: " ++ exc_str e).

Definition configure : M unit :=
  entered <- prompt_credentials;;
  match entered with
  | None => ret tt
  | Some (username, consumer_key, consumer_secret) =>
      try_except (oauth_handshake username consumer_key consumer_secret) setup_failed
  end.

End TwitterConnection.

(** ** Concrete platforms and worlds

    Used to run the adapter on explicit inputs. *)

Module Fixture.

Definition ok (body : pyval) : result Response :=
  Ret {| status_code := 200; text := "OK"; json := Ret body |}.

Definition created : pyval :=
  PDict [("data", PDict [("id", PStr "1850"); ("text", PStr "hello")])].

Definition user_lookup : pyval :=
  PDict [("data", PList [PDict [("id", PStr "42"); ("name", PStr "Alice");
                                ("username", PStr "alice")]])].

Definition timeline : pyval :=
  PDict [("data", PList [PDict [("id", PStr "7"); ("author_id", PStr "42")];
                         PDict [("id", PStr "8"); ("author_id", PStr "99")]]);
         ("includes", PDict [("users", PList [PDict [("id", PStr "42");
                                                     ("name", PStr "Alice");
                                                     ("username", PStr "alice")]])])].

(** The timeline once joined: Alice wrote the first tweet, nobody listed
    wrote the second. *)
Definition first_tweet : pyval :=
  PDict [("id", PStr "7"); ("author_id", PStr "42");
         ("author_name", PStr "Alice"); ("author_username", PStr "alice")].

Definition second_tweet : pyval :=
  PDict [("id", PStr "8"); ("author_id", PStr "99");
         ("author_name", PStr "Unknown"); ("author_username", PStr "Unknown")].

Definition joined_timeline : pyval := PList [first_tweet; second_tweet].

Definition not_found : result Response :=
  Ret {| status_code := 404; text := "Not Found"; json := Ret (PDict []) |}.

(** A platform on which every call succeeds. *)
Definition platform : Remote := {|
  http := fun _ c =>
    match c with
    | POST _ tweets _ => Ret {| status_code := 201; text := "Created"; json := Ret created |}
    | POST _ _ _ => ok (PDict [("data", PDict [("liked", PBool true)])])
    | GET _ users_by _ => ok user_lookup
    | GET _ (user_tweets _) _ => ok (PDict [("data", PList [PDict [("id", PStr "7")]])])
    | GET _ (reverse_chronological _) _ => ok timeline
    | _ => not_found
    end;
  token_endpoint := fun _ c =>
    match c with
    | fetch_request_token _ _ => Ret [("oauth_token", "rt"); ("oauth_token_secret", "rs")]
    | _ => Ret [("oauth_token", "at"); ("oauth_token_secret", "ats")]
    end;
  tweepy_get_me := fun _ _ => Ret tt;
  authorization_url := fun s base => base ++ "?oauth_token=" ++ default "" (resource_owner_key s);
  h_bar := "----------"
|}.

(** The same platform, except that the username lookup answers 404. *)
Definition platform_without_user : Remote := {|
  http := fun h c =>
    match c with
    | GET _ users_by _ => not_found
    | _ => http platform h c
    end;
  token_endpoint := token_endpoint platform;
  tweepy_get_me := tweepy_get_me platform;
  authorization_url := authorization_url platform;
  h_bar := h_bar platform
|}.

(** The same platform, except that the access-token response carries no
    oauth_token_secret. *)
Definition platform_without_secret : Remote := {|
  http := http platform;
  token_endpoint := fun h c =>
    match c with
    | fetch_access_token _ _ => Ret [("oauth_token", "at")]
    | _ => token_endpoint platform h c
    end;
  tweepy_get_me := tweepy_get_me platform;
  authorization_url := authorization_url platform;
  h_bar := h_bar platform
|}.

(** A platform whose OAuth endpoints cannot be reached. *)
Definition platform_offline : Remote := {|
  http := http platform;
  token_endpoint := fun _ _ => Raise (Exn (Other "ConnectionError" false) "Connection refused");
  tweepy_get_me := tweepy_get_me platform;
  authorization_url := authorization_url platform;
  h_bar := h_bar platform
|}.

(** 281 characters. *)
Definition long_message : string := string_of_list_ascii (repeat "a"%char 281).

(** What the user types during setup: username, key, secret, PIN. *)
Definition typed : list string := ["alice"; "ck"; "cs"; "1234"].

Definition no_kwargs : Kwargs :=
  {| kw_username := None; kw_count := None; kw_message := None; kw_tweet_id := None |}.

Definition secrets : gmap string string :=
  <["TWITTER_CONSUMER_KEY" := "ck"]>
    (<["TWITTER_CONSUMER_SECRET" := "cs"]>
       (<["TWITTER_ACCESS_TOKEN" := "at"]>
          (<["TWITTER_ACCESS_TOKEN_SECRET" := "ats"]> ∅))).

(** A fresh process: nothing configured, no '.env'. *)
Definition fresh (lines : list string) : World := {|
  environ := ∅; dotenv := None; _oauth_session := None;
  trace := []; stdin := lines; stdout := []
|}.

(** A process whose environment holds the four secrets and nothing else. *)
Definition with_secrets : World := {|
  environ := secrets; dotenv := None; _oauth_session := None;
  trace := []; stdin := []; stdout := []
|}.

(** A process with the four secrets, the user id and a '.env' file. *)
Definition configured : World := {|
  environ := <["TWITTER_USER_ID" := "42"]> secrets; dotenv := Some ∅;
  _oauth_session := None; trace := []; stdin := []; stdout := []
|}.

(** A platform that refuses the consumer key: requests_oauthlib's
    TokenRequestDenied derives from ValueError. *)
Definition platform_rejecting : Remote := {|
  http := http platform;
  token_endpoint := fun _ _ =>
    Raise (Exn (Other "TokenRequestDenied" true) "Token request failed with code 401");
  tweepy_get_me := tweepy_get_me platform;
  authorization_url := authorization_url platform;
  h_bar := h_bar platform
|}.

(** A timeline without "includes". *)
Definition bare_timeline : pyval :=
  PDict [("data", PList [PDict [("id", PStr "7"); ("author_id", PStr "42")]])].

Definition platform_bare : Remote := {|
  http := fun h c =>
    match c with
    | GET _ (reverse_chronological _) _ => ok bare_timeline
    | _ => http platform h c
    end;
  token_endpoint := token_endpoint platform;
  tweepy_get_me := tweepy_get_me platform;
  authorization_url := authorization_url platform;
  h_bar := h_bar platform
|}.

(** The world a setup leaves when the access-token response lacks the
    secret. *)
Definition partial_run : World := snd (configure platform_without_secret (fresh typed)).

End Fixture.

(** ** What the world holds for a call *)

(** os.environ as it stands once load_dotenv() has run. *)
Definition effective_environ (w : World) : gmap string string :=
  match dotenv w with
  | Some f => environ w ∪ f
  | None => environ w
  end.

(** The world load_dotenv() leaves. *)
Definition loaded (w : World) : World :=
  match dotenv w with
  | Some f => set_environ (environ w ∪ f) w
  | None => w
  end.

(** The four secrets a session is built from. *)
Definition stored_secrets (w : World) : list (option string) :=
  [effective_environ w !! "TWITTER_CONSUMER_KEY";
   effective_environ w !! "TWITTER_CONSUMER_SECRET";
   effective_environ w !! "TWITTER_ACCESS_TOKEN";
   effective_environ w !! "TWITTER_ACCESS_TOKEN_SECRET"].

(** The five fields is_configured asks for. *)
Definition required_fields (w : World) : list (option string) :=
  stored_secrets w ++ [effective_environ w !! "TWITTER_USER_ID"].

Definition session_from_environment (w : World) : OAuth1Session :=
  {| client_key := effective_environ w !! "TWITTER_CONSUMER_KEY";
     client_secret := effective_environ w !! "TWITTER_CONSUMER_SECRET";
     resource_owner_key := effective_environ w !! "TWITTER_ACCESS_TOKEN";
     resource_owner_secret := effective_environ w !! "TWITTER_ACCESS_TOKEN_SECRET";
     verifier := None |}.

(** A session is at hand: cached, or constructible from the secrets. *)
Definition session_ready (w : World) : bool :=
  match _oauth_session w with
  | Some _ => true
  | None => all (stored_secrets w)
  end.

Definition session_of (w : World) : OAuth1Session :=
  default (session_from_environment w) (_oauth_session w).

(** The world _get_oauth leaves when it returns. *)
Definition with_session (w : World) : World :=
  match _oauth_session w with
  | Some _ => w
  | None => set_oauth_session (Some (session_from_environment w)) (loaded w)
  end.

Definition missing_credentials : exn :=
  Exn ValueError_ "Missing required Twitter credentials in environment".

Definition registered : list string :=
  ["get-latest-tweets"; "post-tweet"; "read-timeline"; "like-tweet"].

(** A field that is present and non-empty. *)
Definition present (o : option string) : Prop := exists s, o = Some s /\ s <> "".

(** The call is_configured validates the credentials with. *)
Definition validation_call (w : World) : call :=
  get_me (effective_environ w !! "TWITTER_CONSUMER_KEY")
         (effective_environ w !! "TWITTER_CONSUMER_SECRET")
         (effective_environ w !! "TWITTER_ACCESS_TOKEN")
         (effective_environ w !! "TWITTER_ACCESS_TOKEN_SECRET").

(** The request of get_user_id_from_username. *)
Definition lookup_call (username : string) (w : World) : call :=
  GET (session_of w) users_by [("usernames", PStr username)].

(** The world once a session is at hand and [c] has been issued. *)
Definition sent (c : call) (w : World) : World :=
  set_trace (trace w ++ [c]) (with_session w).

(** The parameters get_latest_tweets sends (lines 78-82). *)
Definition user_tweets_params (count : Z) : list (string * pyval) :=
  [("tweet.fields", PStr "created_at,public_metrics,text");
   ("max_results", PInt (Z.min count 100));
   ("exclude", PStr "retweets,replies")].

(** The parameters read_timeline sends (lines 292-297) and its request. *)
Definition timeline_params (count : Z) : list (string * pyval) :=
  [("tweet.fields", PStr "created_at,author_id,attachments");
   ("expansions", PStr "author_id");
   ("user.fields", PStr "name,username");
   ("max_results", PInt count)].

Definition timeline_call (user_id : string) (count : Z) (w : World) : call :=
  GET (session_of w) (reverse_chronological user_id) (timeline_params count).

Definition missing_user_id : exn :=
  Exn ValueError_ "TWITTER_USER_ID not found in environment variables.".

(** What read_timeline makes of the answer to its request. *)
Definition timeline_result (answer : result Response) : result pyval :=
  response <~ answer;;
  if negb (status_code response =? 200) then Raise (request_error response)
  else body <~ json response;; join_authors body.

(** The users that accompany a timeline body: includes.users. *)
Definition referenced_users (body : pyval) : result (list pyval) :=
  includes <~ py_get body "includes" (PDict []);;
  user_info <~ py_get includes "users" (PList []);;
  py_iter user_info.

(** The tweets a call returned. *)
Definition returned_tweet (v tweet : pyval) : Prop :=
  exists items, v = PList items /\ tweet ∈ items.

Definition record_entry (m : gmap hkey (pyval * pyval)) (e : hkey * (pyval * pyval))
  : gmap hkey (pyval * pyval) := <[fst e := snd e]> m.

Definition unknown_author : pyval * pyval := (PStr "Unknown", PStr "Unknown").

(** A computation that leaves '.env' as it found it. *)
Definition keeps_dotenv {A} (m : M A) : Prop :=
  forall w, dotenv (snd (m w)) = dotenv w.

(** '.env' once the six fields are written over [base]. *)
Definition saved (username user_id consumer_key consumer_secret
                  access_token access_token_secret : string)
    (base : gmap string string) : gmap string string :=
  <["TWITTER_ACCESS_TOKEN_SECRET" := access_token_secret]>
    (<["TWITTER_ACCESS_TOKEN" := access_token]>
       (<["TWITTER_CONSUMER_SECRET" := consumer_secret]>
          (<["TWITTER_CONSUMER_KEY" := consumer_key]>
             (<["TWITTER_USER_ID" := user_id]>
                (<["TWITTER_USERNAME" := username]> base))))).

(** A computation that leaves one observation [f] of the world as it
    found it. *)
Definition preserves {A B} (f : World -> B) (m : M A) : Prop :=
  forall w, f (snd (m w)) = f w.

(** The request of like_tweet (lines 345-348). *)
Definition like_call (user_id tweet_id : string) (w : World) : call :=
  POST (session_of w) (likes user_id) (PDict [("tweet_id", PStr tweet_id)]).

(** The second request of get_latest_tweets (lines 84-87). *)
Definition tweets_call (user_id : pyval) (count : Z) (w : World) : call :=
  GET (session_of w) (user_tweets user_id) (user_tweets_params count).

(** The exception get_latest_tweets makes of a failed lookup (line 76). *)
Definition lookup_failed (username : string) (e : exn) : exn :=
  Exn Exception_ ("Failed to get user ID for username " ++ username ++ ": " ++ exc_str e).

Definition no_user_found (username : string) : exn :=
  Exn Exception_ ("No user found for username: " ++ username).

(** The session configure builds from the tokens it obtained (lines 214-219). *)
Definition new_session (consumer_key consumer_secret : string)
    (access_token access_token_secret : option string) : OAuth1Session :=
  {| client_key := Some consumer_key; client_secret := Some consumer_secret;
     resource_owner_key := access_token; resource_owner_secret := access_token_secret;
     verifier := None |}.

(** The session of the request-token step (line 178). *)
Definition consumer_session (consumer_key consumer_secret : string) : OAuth1Session :=
  {| client_key := Some consumer_key; client_secret := Some consumer_secret;
     resource_owner_key := None; resource_owner_secret := None; verifier := None |}.

(** The world once is_configured has loaded '.env' and asked the platform. *)
Definition validated (w : World) : World :=
  set_trace (trace w ++ [validation_call w]) (loaded w).

(** The keys configure writes. *)
Definition credential_keys : list string :=
  ["TWITTER_USERNAME"; "TWITTER_USER_ID"; "TWITTER_CONSUMER_KEY";
   "TWITTER_CONSUMER_SECRET"; "TWITTER_ACCESS_TOKEN"; "TWITTER_ACCESS_TOKEN_SECRET"].

(** What '.env' binds a key to; None also when there is no file. *)
Definition setting (key : string) (w : World) : option string :=
  dotenv w ≫= (.!! key).

(** Two tweets that differ at most in the two author fields. *)
Definition same_but_author (tweet tweet' : pyval) : Prop :=
  exists d d', tweet = PDict d /\ tweet' = PDict d'
    /\ forall k, k <> "author_name" -> k <> "author_username" -> assoc k d' = assoc k d.

(** A user entry the join accepts: a dict with a hashable id, a name and
    a username. *)
Definition well_formed_user (user : pyval) : Prop :=
  exists d id k name username,
    user = PDict d /\ assoc "id" d = Some id /\ hash_key id = Ret k
    /\ assoc "name" d = Some name /\ assoc "username" d = Some username.

(** A tweet the join accepts: a dict with a hashable author_id. *)
Definition well_formed_tweet (tweet : pyval) : Prop :=
  exists d author_id k,
    tweet = PDict d /\ assoc "author_id" d = Some author_id /\ hash_key author_id = Ret k.

(** Both author fields of a returned tweet read "Unknown". *)
Definition author_unknown (tweet : pyval) : Prop :=
  getitem_str tweet "author_name" = Ret (PStr "Unknown")
  /\ getitem_str tweet "author_username" = Ret (PStr "Unknown").

(** What get_user_id_from_username makes of the answer to its request
    (lines 136-145). *)
Definition lookup_result (username : string) (answer : result Response) : result pyval :=
  response <~ answer;;
  if negb (status_code response =? 200) then Raise (request_error response)
  else json_response <~ json response;;
       data <~ py_get json_response "data" PNone;;
       if negb (truthy data) then Raise (no_user_found username)
       else data <~ getitem_str json_response "data";;
            first <~ getitem_0 data;;
            getitem_str first "id".

(** What get_latest_tweets makes of the answer to its second request
    (lines 89-95). *)
Definition tweets_result (answer : result Response) : result pyval :=
  response <~ answer;;
  if negb (status_code response =? 200) then Raise (request_error response)
  else json_response <~ json response;; py_get json_response "data" (PList []).

(** What a call shows of itself: its result and the calls issued so far. *)
Definition outcome {A} (m : M A) (w : World) : result A * list call :=
  (fst (m w), trace (snd (m w))).

(** ** The console's encoding

    Everything above prints on a console that can encode any text, and
    its console texts leave out the pictographs of the source.  Here the
    console is explicit, for the one print whose failure is_configured
    does not catch: sys.stdout.write(text) raises UnicodeEncodeError (a
    ValueError) when the encoding of stdout has no code for a character
    of [text].  A console is given by the text of that exception, None
    for a text it can encode. *)

Module Console.

Definition console : Type := string -> option string.

Definition UnicodeEncodeError (text : string) : exn :=
  Exn (Other "UnicodeEncodeError" true) text.

(** U+274C, the cross mark that opens the line of is_configured. *)
Definition cross_mark : string :=
  String (ascii_of_nat 226) (String (ascii_of_nat 157) (String (ascii_of_nat 140) "")).

(** print(arg, ...): the arguments are written in turn, a blank before each
    but the first, and the line is complete after the last.  A write the
    console cannot encode raises; what was written before it stays as an
    unfinished line. *)
Fixpoint write_args (c : console) (first : bool) (written : string) (args : list string)
  : M unit :=
  match args with
  | [] => print written
  | arg :: rest =>
      let written := if first then written else written ++ " " in
      match c arg with
      | Some text =>
          (if first then ret tt else print written);;;
          raise (UnicodeEncodeError text)
      | None => write_args c false (written ++ arg) rest
      end
  end.

Definition print (c : console) (args : list string) : M unit :=
  write_args c true "" args.

(** Line 283, as the source has it. *)
Definition validation_error_line : string :=
  cross_mark ++ " There was an error validating your Twitter credentials:".

(** is_configured (lines 248-284) on the console [c]. *)
Definition is_configured (c : console) (R : Remote) (verbose : bool) : M bool :=
  present <- path_exists_dotenv;;
  if negb present then ret false
  else
    try_except
      (load_dotenv;;;
       consumer_key <- getenv "TWITTER_CONSUMER_KEY";;
       consumer_secret <- getenv "TWITTER_CONSUMER_SECRET";;
       access_token <- getenv "TWITTER_ACCESS_TOKEN";;
       access_token_secret <- getenv "TWITTER_ACCESS_TOKEN_SECRET";;
       user_id <- getenv "TWITTER_USER_ID";;
       if negb (all [consumer_key; consumer_secret; access_token; access_token_secret; user_id])
       then ret false
       else
         issue (tweepy_get_me R)
               (get_me consumer_key consumer_secret access_token access_token_secret);;;
         ret true)
      (fun e =>
         (if verbose then print c [validation_error_line; exc_str e] else ret tt);;;
         ret false).

End Console.

(** ** Further worlds *)

Module Scenario.

(** The euro sign, three bytes in UTF-8, and a message of a hundred of
    them. *)
Definition euro : string :=
  String (ascii_of_nat 226) (String (ascii_of_nat 130) (String (ascii_of_nat 172) "")).

Definition euro_message : string := String.concat "" (repeat euro 100).

(** The platform on which the username lookup answers 404 and the
    access-token response carries no oauth_token_secret. *)
Definition platform_without_user_or_secret : Remote := {|
  http := http Fixture.platform_without_user;
  token_endpoint := token_endpoint Fixture.platform_without_secret;
  tweepy_get_me := tweepy_get_me Fixture.platform;
  authorization_url := authorization_url Fixture.platform;
  h_bar := h_bar Fixture.platform
|}.

(** A platform that rejects the stored credentials. *)
Definition platform_unauthorized : Remote := {|
  http := http Fixture.platform;
  token_endpoint := token_endpoint Fixture.platform;
  tweepy_get_me := fun _ _ => Raise (Exn (Other "Unauthorized" false) "401 Unauthorized");
  authorization_url := authorization_url Fixture.platform;
  h_bar := h_bar Fixture.platform
|}.

(** A console whose encoding is ASCII.  The text of the exception is
    the one CPython gives for a line that opens with the cross mark. *)
Definition ascii_console : Console.console :=
  fun text =>
    if forallb (fun c => (nat_of_ascii c <? 128)%nat) (list_ascii_of_string text)
    then None
    else Some "'ascii' codec can't encode character '\u274c' in position 0: ordinal not in range(128)".

(** A console whose encoding is UTF-8. *)
Definition utf8_console : Console.console := fun _ => None.

(** A setup on that platform: the world once the prompts are answered,
    the world once the tokens are exchanged, and the world it leaves. *)
Definition fallback_prompted : World :=
  snd (prompt_credentials platform_without_user_or_secret (Fixture.fresh Fixture.typed)).

Definition fallback_exchanged : World :=
  snd (exchange_tokens platform_without_user_or_secret "ck" "cs" fallback_prompted).

Definition fallback_run : World :=
  snd (configure platform_without_user_or_secret (Fixture.fresh Fixture.typed)).

(** A new process in a directory where a setup has succeeded: the six
    fields are in '.env', os.environ has none of them. *)
Definition after_setup : World := {|
  environ := ∅; dotenv := Some (saved "alice" "42" "ck" "cs" "at" "ats" ∅);
  _oauth_session := None; trace := []; stdin := []; stdout := []
|}.

(** That process once is_configured has run. *)
Definition checked : World := snd (is_configured Fixture.platform false after_setup).

(** A configured process whose user answers "n" to the setup. *)
Definition asked_again : World := {|
  environ := <["TWITTER_USER_ID" := "42"]> Fixture.secrets; dotenv := Some ∅;
  _oauth_session := None; trace := []; stdin := ["n"]; stdout := []
|}.

(** A directory whose '.env' holds a setting of another component. *)
Definition other_setting : World := {|
  environ := ∅; dotenv := Some (<["OPENAI_API_KEY" := "sk"]> ∅);
  _oauth_session := None; trace := []; stdin := Fixture.typed; stdout := []
|}.

End Scenario.

(** ** Session construction *)

Section Session.

Variable R : Remote.

Lemma environ_loaded w : environ (loaded w) = effective_environ w.
Proof. unfold loaded, effective_environ. destruct (dotenv w); reflexivity. Qed.

Lemma trace_loaded w : trace (loaded w) = trace w.
Proof. unfold loaded. destruct (dotenv w); reflexivity. Qed.

Lemma dotenv_loaded w : dotenv (loaded w) = dotenv w.
Proof. unfold loaded. destruct (dotenv w) eqn:E; cbn; congruence. Qed.

Lemma session_loaded w : _oauth_session (loaded w) = _oauth_session w.
Proof. unfold loaded. destruct (dotenv w); reflexivity. Qed.

Lemma load_dotenv_loaded w : load_dotenv w = (Ret tt, loaded w).
Proof. reflexivity. Qed.

Lemma _get_oauth_ready w :
  session_ready w = true -> _get_oauth w = (Ret (session_of w), with_session w).
Proof.
  unfold session_ready, session_of, with_session, _get_oauth, bind, get_oauth_session.
  destruct (_oauth_session w) as [s|]; [reflexivity|].
  intros Hall. rewrite load_dotenv_loaded. unfold getenv. cbn [fst snd].
  rewrite environ_loaded. unfold stored_secrets in Hall. rewrite Hall. reflexivity.
Qed.

Lemma _get_oauth_not_ready w :
  session_ready w = false -> _get_oauth w = (Raise missing_credentials, loaded w).
Proof.
  unfold session_ready, _get_oauth, bind, get_oauth_session.
  destruct (_oauth_session w) as [s|]; [discriminate|].
  intros Hall. rewrite load_dotenv_loaded. unfold getenv. cbn [fst snd].
  rewrite environ_loaded. unfold stored_secrets in Hall. rewrite Hall. reflexivity.
Qed.

Lemma trace_with_session w : trace (with_session w) = trace w.
Proof.
  unfold with_session. destruct (_oauth_session w); [reflexivity|].
  cbn. apply trace_loaded.
Qed.

Lemma dotenv_with_session w : dotenv (with_session w) = dotenv w.
Proof.
  unfold with_session. destruct (_oauth_session w); [reflexivity|].
  cbn. apply dotenv_loaded.
Qed.

Lemma session_with_session w : _oauth_session (with_session w) = Some (session_of w).
Proof.
  unfold with_session, session_of. destruct (_oauth_session w) eqn:E; cbn; [exact E|reflexivity].
Qed.

End Session.

(** ** post_tweet, is_configured, perform_action *)

Section Calls.

Variable R : Remote.

Lemma length_limit (message : string) :
  (280 <? len message)%nat = false <-> (len message <= 280)%nat.
Proof. rewrite Nat.ltb_ge. reflexivity. Qed.

(** C1 (amended).  post_tweet raises the validation error and leaves the
    world untouched when the message is longer than 280 characters,
    counted as len(message) counts them: code points, not bytes.  For a
    message of at most 280 characters, when a session is at hand
    (cached, or the four secrets are stored) it issues exactly one POST,
    and on a response it returns response.json() when the status is 201
    and raises the request error otherwise; when no session is at hand it
    raises the configuration error and issues no call. *)
Theorem post_tweet_spec (message : string) (w : World) :
  ((280 < len message)%nat ->
     post_tweet R message w
     = (Raise (Exn ValueError_ "Tweet exceeds 280 character limit"), w))
  /\ ((len message <= 280)%nat -> session_ready w = true ->
      let request := POST (session_of w) tweets (PDict [("text", PStr message)]) in
      trace (snd (post_tweet R message w)) = (trace w ++ [request])%list
      /\ forall response, http R (trace w) request = Ret response ->
           fst (post_tweet R message w)
           = if status_code response =? 201 then json response
             else Raise (request_error response))
  /\ ((len message <= 280)%nat -> session_ready w = false ->
      fst (post_tweet R message w) = Raise missing_credentials
      /\ trace (snd (post_tweet R message w)) = trace w).
Proof.
  unfold post_tweet. split; [|split].
  - intros Hlong. apply Nat.ltb_lt in Hlong. rewrite Hlong. reflexivity.
  - intros Hshort Hready.
    set (request := POST (session_of w) tweets (PDict [("text", PStr message)])).
    apply length_limit in Hshort. rewrite Hshort.
    unfold bind. rewrite (_get_oauth_ready w Hready). unfold issue. cbn [fst snd].
    rewrite trace_with_session. fold request. split.
    + destruct (http R (trace w) request) as [response|e]; [|reflexivity].
      destruct (negb (status_code response =? 201)); reflexivity.
    + intros response Hresp. rewrite Hresp.
      destruct (status_code response =? 201); reflexivity.
  - intros Hshort Hnot. apply length_limit in Hshort. rewrite Hshort.
    unfold bind. rewrite (_get_oauth_not_ready w Hnot). split; [reflexivity|].
    apply trace_loaded.
Qed.

(** C9.  Without a '.env' file is_configured answers False at once: no
    variable is loaded or read, no call is issued, nothing is printed. *)
Theorem is_configured_without_dotenv (verbose : bool) (w : World) :
  dotenv w = None -> is_configured R verbose w = (Ret false, w).
Proof.
  intros Hnone. unfold is_configured, bind, path_exists_dotenv.
  rewrite Hnone. reflexivity.
Qed.

Lemma assoc_unregistered (action_name : string) :
  action_name ∉ registered -> assoc action_name (actions R) = None.
Proof.
  unfold registered. intros Hnot.
  repeat (apply not_elem_of_cons in Hnot; destruct Hnot as [?%String.eqb_neq Hnot]).
  cbn. repeat match goal with H : (_ =? _)%string = false |- _ => rewrite H; clear H end.
  reflexivity.
Qed.

(** C7.  perform_action with a name outside the registry raises
    Exception("Unknown action: <name>") and leaves the world untouched, so
    no call is issued; the registered names are exactly the four actions,
    and a registered name runs its handler on the keyword arguments. *)
Theorem perform_action_dispatch (action_name : string) (kwargs : Kwargs) (w : World) :
  (action_name ∉ registered ->
     perform_action R action_name kwargs w
     = (Raise (Exn Exception_ ("Unknown action: " ++ action_name)), w))
  /\ (forall action, assoc action_name (actions R) = Some action ->
        action_name ∈ registered
        /\ perform_action R action_name kwargs w = func action kwargs w)
  /\ (forall username, kw_username kwargs = Some username ->
        perform_action R "get-latest-tweets" kwargs w
        = get_latest_tweets R username (default 10 (kw_count kwargs)) w)
  /\ (forall message, kw_message kwargs = Some message ->
        perform_action R "post-tweet" kwargs w = post_tweet R message w)
  /\ perform_action R "read-timeline" kwargs w
     = read_timeline R (default 10 (kw_count kwargs)) w
  /\ (forall tweet_id, kw_tweet_id kwargs = Some tweet_id ->
        perform_action R "like-tweet" kwargs w = like_tweet R tweet_id w).
Proof.
  split; [|split; [|repeat split]].
  - intros Hnot. unfold perform_action. rewrite (assoc_unregistered _ Hnot). reflexivity.
  - intros action Hsome. split.
    + destruct (decide (action_name ∈ registered)) as [|Hnot]; [assumption|].
      rewrite (assoc_unregistered _ Hnot) in Hsome. discriminate.
    + unfold perform_action. rewrite Hsome. reflexivity.
  - intros username H. unfold perform_action. cbn. rewrite H. reflexivity.
  - intros message H. unfold perform_action. cbn. rewrite H. reflexivity.
  - intros tweet_id H. unfold perform_action. cbn. rewrite H. reflexivity.
Qed.

End Calls.

(** ** The calls that fetch: what they send *)

Lemma truthy_str_present (o : option string) : truthy_str o = true <-> present o.
Proof.
  unfold truthy_str, present. destruct o as [s|].
  - rewrite negb_true_iff, String.eqb_neq. split.
    + intros Hne. exists s. split; [reflexivity|assumption].
    + intros (s' & [= <-] & Hne). assumption.
  - split; [discriminate|]. intros (s & Hs & _). discriminate.
Qed.

Lemma all_present (l : list (option string)) : all l = true <-> Forall present l.
Proof.
  unfold all. rewrite forallb_forall, Forall_forall. split.
  - intros H o Ho. apply truthy_str_present, H, list_elem_of_In, Ho.
  - intros H o Ho. apply truthy_str_present, H, list_elem_of_In, Ho.
Qed.

Section Fetch.

Variable R : Remote.

(** The username lookup: without a session it raises before any call;
    with one it issues exactly the lookup, whatever comes back. *)
Lemma get_user_id_from_username_run (username : string) (w : World) :
  (session_ready w = false ->
     get_user_id_from_username R username w = (Raise missing_credentials, loaded w))
  /\ (session_ready w = true ->
      snd (get_user_id_from_username R username w) = sent (lookup_call username w) w).
Proof.
  unfold get_user_id_from_username, bind. split; intros Hready.
  - rewrite (_get_oauth_not_ready w Hready). reflexivity.
  - rewrite (_get_oauth_ready w Hready). unfold issue. cbn [fst snd].
    rewrite trace_with_session. fold (lookup_call username w). unfold sent.
    destruct (http R (trace w) (lookup_call username w)) as [response|e]; [|reflexivity].
    destruct (negb (status_code response =? 200)); [reflexivity|].
    unfold lift at 1. destruct (json response) as [body|e]; [|reflexivity].
    unfold lift at 1. destruct (py_get body "data" PNone) as [data|e]; [|reflexivity].
    destruct (negb (truthy data)); reflexivity.
Qed.

Lemma session_ready_sent (c : call) (w : World) :
  session_ready (sent c w) = true /\ session_of (sent c w) = session_of w
  /\ with_session (sent c w) = sent c w.
Proof.
  unfold session_ready, session_of at 1, with_session at 1, sent. cbn.
  rewrite session_with_session. cbn. auto.
Qed.

(** The trace of get_latest_tweets: nothing, the lookup alone, or the
    lookup followed by the request for the tweets of the id it returned. *)
Lemma get_latest_tweets_trace (username : string) (count : Z) (w : World) :
  let run := get_latest_tweets R username count w in
  (session_ready w = false /\ (exists e, fst run = Raise e) /\ trace (snd run) = trace w)
  \/ (session_ready w = true /\ (exists e, fst run = Raise e)
      /\ (exists e, fst (get_user_id_from_username R username w) = Raise e)
      /\ trace (snd run) = (trace w ++ [lookup_call username w])%list)
  \/ (session_ready w = true /\ exists user_id,
        fst (get_user_id_from_username R username w) = Ret user_id
        /\ trace (snd run)
           = (trace w ++ [lookup_call username w;
                          GET (session_of w) (user_tweets user_id)
                              (user_tweets_params count)])%list).
Proof.
  cbv zeta. unfold get_latest_tweets, bind, try_except.
  destruct (get_user_id_from_username_run username w) as [Hno Hyes].
  destruct (session_ready w) eqn:Hready.
  - specialize (Hyes eq_refl). clear Hno. right.
    destruct (get_user_id_from_username R username w) as [[user_id|e] w1] eqn:Hrun;
      cbn [fst snd] in *; subst w1.
    + right. split; [reflexivity|]. exists user_id. split; [reflexivity|].
      destruct (session_ready_sent (lookup_call username w) w) as (Hr & Hs & Hw).
      rewrite (_get_oauth_ready _ Hr), Hs, Hw. unfold issue. cbn [fst snd].
      fold (user_tweets_params count).
      match goal with |- trace (snd ?x) = _ => assert (Ht : exists r, x = (r, set_trace
        (trace (sent (lookup_call username w) w) ++
           [GET (session_of w) (user_tweets user_id) (user_tweets_params count)])
        (sent (lookup_call username w) w))) end.
      { destruct (http R _ _) as [response|e]; [|eexists; reflexivity].
        destruct (negb (status_code response =? 200)); [eexists; reflexivity|].
        unfold lift at 1. destruct (json response) as [body|e]; eexists; reflexivity. }
      destruct Ht as [r ->]. cbn. rewrite <- app_assoc. reflexivity.
    + left. split; [reflexivity|]. split; [eexists; reflexivity|].
      split; [eexists; reflexivity|]. reflexivity.
  - left. rewrite (Hno eq_refl). cbn. split; [reflexivity|].
    split; [eexists; reflexivity|]. apply trace_loaded.
Qed.

(** C4.  Whatever the count, every request get_latest_tweets sends to the
    user-tweets endpoint carries max_results = min(count, 100), which is
    at most 100; and whenever the username lookup returns an id, that
    request is what follows the lookup. *)
Theorem get_latest_tweets_caps_count (username : string) (count : Z) (w : World) :
  exists new : list call,
    trace (snd (get_latest_tweets R username count w)) = (trace w ++ new)%list
    /\ (forall s user_id params, GET s (user_tweets user_id) params ∈ new ->
          assoc "max_results" params = Some (PInt (Z.min count 100))
          /\ Z.min count 100 <= 100)
    /\ (forall user_id w1,
          get_user_id_from_username R username w = (Ret user_id, w1) ->
          exists s params,
            new = [lookup_call username w; GET s (user_tweets user_id) params]).
Proof.
  destruct (get_latest_tweets_trace username count w)
    as [(Hr & _ & Ht) | [(Hr & _ & (e & He) & Ht) | (Hr & user_id & Hid & Ht)]].
  - exists []. rewrite app_nil_r. split; [exact Ht|]. split.
    + intros s uid params Hin. inversion Hin.
    + intros uid w1 Hrun.
      destruct (get_user_id_from_username_run username w) as [Hno _].
      rewrite (Hno Hr) in Hrun. discriminate.
  - exists [lookup_call username w]. split; [exact Ht|]. split.
    + intros s uid params Hin. apply list_elem_of_singleton in Hin. discriminate.
    + intros uid w1 Hrun. rewrite Hrun in He. discriminate.
  - eexists. split; [exact Ht|]. split.
    + intros s uid params Hin.
      apply elem_of_cons in Hin as [Hin|Hin]; [discriminate|].
      apply list_elem_of_singleton in Hin. injection Hin as _ _ ->.
      split; [reflexivity|]. apply Z.le_min_r.
    + intros uid w1 Hrun. rewrite Hrun in Hid. injection Hid as ->.
      eexists _, _. reflexivity.
Qed.

End Fetch.

(** ** read_timeline *)

Section Timeline.

Variable R : Remote.

(** read_timeline, case by case. *)
Lemma read_timeline_run (count : Z) (w : World) :
  match environ w !! "TWITTER_USER_ID" with
  | Some uid =>
      if String.eqb uid "" then read_timeline R count w = (Raise missing_user_id, w)
      else if session_ready w
           then read_timeline R count w
                = (timeline_result (http R (trace w) (timeline_call uid count w)),
                   sent (timeline_call uid count w) w)
           else read_timeline R count w = (Raise missing_credentials, loaded w)
  | None => read_timeline R count w = (Raise missing_user_id, w)
  end.
Proof.
  unfold read_timeline, bind, getenv.
  destruct (environ w !! "TWITTER_USER_ID") as [uid|]; [|reflexivity].
  destruct (String.eqb uid ""); [reflexivity|].
  destruct (session_ready w) eqn:Hready.
  - rewrite (_get_oauth_ready w Hready). unfold issue. cbn [fst snd].
    rewrite trace_with_session. fold (timeline_params count).
    fold (timeline_call uid count w). unfold sent, timeline_result.
    destruct (http R (trace w) (timeline_call uid count w)) as [response|e]; [|reflexivity].
    cbn [rbind]. destruct (negb (status_code response =? 200)); [reflexivity|].
    unfold lift at 1. destruct (json response) as [body|e]; reflexivity.
  - rewrite (_get_oauth_not_ready w Hready). reflexivity.
Qed.

Lemma trace_sent (c : call) (w : World) : trace (sent c w) = (trace w ++ [c])%list.
Proof. reflexivity. Qed.

(** C10.  read_timeline does not cap the count: every request it sends
    carries max_results = count unchanged, and it sends exactly that
    request as soon as the user id is set and a session is at hand. *)
Theorem read_timeline_passes_count (count : Z) (w : World) :
  exists new : list call,
    trace (snd (read_timeline R count w)) = (trace w ++ new)%list
    /\ (forall s u params, GET s u params ∈ new ->
          assoc "max_results" params = Some (PInt count))
    /\ (forall uid, environ w !! "TWITTER_USER_ID" = Some uid -> uid <> "" ->
          session_ready w = true ->
          new = [GET (session_of w) (reverse_chronological uid) (timeline_params count)]).
Proof.
  pose proof (read_timeline_run count w) as Hrun.
  destruct (environ w !! "TWITTER_USER_ID") as [uid|] eqn:Hid.
  - destruct (String.eqb uid "") eqn:Hempty.
    + exists []. rewrite Hrun, app_nil_r. split; [reflexivity|]. split.
      * intros s u params Hin. inversion Hin.
      * intros uid' [= <-] Hne. apply String.eqb_eq in Hempty. contradiction.
    + destruct (session_ready w) eqn:Hready.
      * exists [timeline_call uid count w]. rewrite Hrun. split; [reflexivity|]. split.
        -- intros s u params Hin. apply list_elem_of_singleton in Hin.
           injection Hin as _ _ ->. reflexivity.
        -- intros uid' [= <-] _ _. reflexivity.
      * exists []. rewrite Hrun, app_nil_r. split; [apply trace_loaded|]. split.
        -- intros s u params Hin. inversion Hin.
        -- intros uid' _ _ Hr. discriminate.
  - exists []. rewrite Hrun, app_nil_r. split; [reflexivity|]. split.
    + intros s u params Hin. inversion Hin.
    + intros uid' Hsome. discriminate.
Qed.

End Timeline.

(** ** The join of tweets with their authors *)

Lemma assoc_dict_set_eq {A} (k : string) (v : A) (d : list (string * A)) :
  assoc k (dict_set k v d) = Some v.
Proof.
  induction d as [|[k' v'] d IH]; cbn.
  - rewrite String.eqb_refl. reflexivity.
  - destruct (String.eqb k k') eqn:E; cbn.
    + rewrite String.eqb_refl. reflexivity.
    + rewrite E. exact IH.
Qed.

Lemma assoc_dict_set_ne {A} (k k' : string) (v : A) (d : list (string * A)) :
  k <> k' -> assoc k' (dict_set k v d) = assoc k' d.
Proof.
  intros Hne. induction d as [|[k0 v0] d IH]; cbn.
  - apply not_eq_sym, String.eqb_neq in Hne. rewrite Hne. reflexivity.
  - destruct (String.eqb k k0) eqn:E; cbn.
    + apply String.eqb_eq in E. subst k0.
      apply not_eq_sym, String.eqb_neq in Hne. rewrite Hne. reflexivity.
    + destruct (String.eqb k' k0); [reflexivity|exact IH].
Qed.

Lemma for_each_Forall2 {A B} (body : A -> result B) (l : list A) (l' : list B) :
  for_each body l = Ret l' -> Forall2 (fun x y => body x = Ret y) l l'.
Proof.
  revert l'. induction l as [|x l IH]; cbn; intros l' H.
  - injection H as <-. constructor.
  - destruct (body x) as [y|e] eqn:Hx; cbn in H; [|discriminate].
    destruct (for_each body l) as [ys|e]; cbn in H; [|discriminate].
    injection H as <-. constructor; [exact Hx|]. apply IH. reflexivity.
Qed.

(** The dict comprehension is a left fold of insertions over the entries
    of the users, in the order of the list. *)
Lemma build_user_dict_fold (users : list pyval) (acc m : gmap hkey (pyval * pyval)) :
  build_user_dict users acc = Ret m ->
  exists entries, for_each user_entry users = Ret entries
                  /\ m = foldl record_entry acc entries.
Proof.
  revert acc. induction users as [|user users IH]; cbn; intros acc H.
  - injection H as <-. exists []. split; reflexivity.
  - destruct (user_entry user) as [e|x]; cbn in H |- *; [|discriminate].
    destruct (IH _ H) as (entries & -> & ->). cbn.
    exists (e :: entries). split; reflexivity.
Qed.



(** One tweet through the loop body: it must be a dict with a hashable
    author_id, and it comes back with the two fields set from the entry
    of that id, or from "Unknown" when the dict has none. *)
Lemma add_author_spec (user_dict : gmap hkey (pyval * pyval)) (tweet tweet' : pyval) :
  add_author user_dict tweet = Ret tweet' ->
  exists d author_id k,
    tweet = PDict d /\ assoc "author_id" d = Some author_id
    /\ hash_key author_id = Ret k
    /\ tweet' = PDict (dict_set "author_username"
                                (snd (default unknown_author (user_dict !! k)))
                                (dict_set "author_name"
                                          (fst (default unknown_author (user_dict !! k))) d)).
Proof.
  unfold add_author. intros H.
  destruct tweet as [| | | | |d]; try discriminate.
  cbn in H. destruct (assoc "author_id" d) as [author_id|] eqn:Ha; [|discriminate].
  cbn in H. destruct (hash_key author_id) as [k|e] eqn:Hk; [|discriminate].
  cbn in H. exists d, author_id, k. repeat split; try assumption.
  destruct (user_dict !! k) as [[name username]|]; cbn in H |- *; congruence.
Qed.

Lemma returned_fields (d : list (string * pyval)) (name username : pyval) :
  let tweet' := PDict (dict_set "author_username" username (dict_set "author_name" name d)) in
  getitem_str tweet' "author_id" = match assoc "author_id" d with
                                    | Some a => Ret a
                                    | None => Raise (Exn KeyError_ "'author_id'")
                                    end
  /\ getitem_str tweet' "author_name" = Ret name
  /\ getitem_str tweet' "author_username" = Ret username.
Proof.
  cbv zeta. unfold getitem_str.
  rewrite !(assoc_dict_set_ne "author_username") by discriminate.
  rewrite (assoc_dict_set_ne "author_name" "author_id") by discriminate.
  rewrite !assoc_dict_set_eq. auto.
Qed.

(** join_authors on a body it accepts. *)
Lemma join_authors_spec (body v : pyval) :
  join_authors body = Ret v ->
  exists tweets users entries,
    py_get body "data" (PList []) = Ret tweets
    /\ referenced_users body = Ret users
    /\ for_each user_entry users = Ret entries
    /\ forall tweet', returned_tweet v tweet' ->
         exists tweet, returned_tweet tweets tweet
                       /\ add_author (foldl record_entry ∅ entries) tweet = Ret tweet'.
Proof.
  unfold join_authors, referenced_users. intros H.
  destruct (py_get body "data" (PList [])) as [tweets|e]; [|discriminate]. cbn in H |- *.
  destruct (py_get body "includes" (PDict [])) as [includes|e]; [|discriminate]. cbn in H |- *.
  destruct (py_get includes "users" (PList [])) as [user_info|e]; [|discriminate].
  cbn in H |- *.
  destruct (py_iter user_info) as [users|e]; [|discriminate]. cbn in H.
  destruct (build_user_dict users ∅) as [user_dict|e] eqn:Hdict; [|discriminate]. cbn in H.
  destruct (build_user_dict_fold _ _ _ Hdict) as (entries & Hentries & ->).
  exists tweets, users, entries. do 3 (split; [reflexivity || exact Hentries|]).
  destruct (py_iter tweets) as [items|e] eqn:Hiter; [|discriminate]. cbn in H.
  destruct (for_each _ items) as [items'|e] eqn:Hloop; [|discriminate]. cbn in H.
  injection H as <-. intros tweet' (l & Hv & Hin).
  destruct tweets as [| | | |l0|]; try discriminate Hv.
  injection Hv as <-. cbn in Hiter. injection Hiter as <-.
  apply for_each_Forall2 in Hloop.
  apply list_elem_of_lookup in Hin as (i & Hi).
  destruct (Forall2_lookup_r _ _ _ _ _ Hloop Hi) as (tweet & Htweet & Hbody).
  exists tweet. split; [|exact Hbody]. exists l0. split; [reflexivity|].
  apply list_elem_of_lookup. eauto.
Qed.

(** ** What an authenticated call needs *)

Section Credentials.

Variable R : Remote.

Lemma session_ready_secrets (w : World) :
  session_ready w = true ->
  is_Some (_oauth_session w) \/ Forall present (stored_secrets w).
Proof.
  unfold session_ready. destruct (_oauth_session w) as [s|].
  - intros _. left. eauto.
  - intros Hall. right. apply all_present, Hall.
Qed.

Lemma post_tweet_not_ready (message : string) (w : World) :
  session_ready w = false -> exists e w', post_tweet R message w = (Raise e, w').
Proof.
  intros Hnot. unfold post_tweet, bind.
  destruct (280 <? len message)%nat; [eexists _, _; reflexivity|].
  rewrite (_get_oauth_not_ready w Hnot). eexists _, _; reflexivity.
Qed.

Lemma like_tweet_returns (tweet_id : string) (w w' : World) (v : pyval) :
  like_tweet R tweet_id w = (Ret v, w') ->
  present (environ w !! "TWITTER_USER_ID") /\ session_ready w = true.
Proof.
  unfold like_tweet, bind, getenv.
  destruct (environ w !! "TWITTER_USER_ID") as [uid|]; [|discriminate].
  destruct (String.eqb uid "") eqn:Hempty; [discriminate|].
  intros Hrun. split.
  - exists uid. split; [reflexivity|]. apply String.eqb_neq, Hempty.
  - destruct (session_ready w) eqn:Hready; [reflexivity|].
    rewrite (_get_oauth_not_ready w Hready) in Hrun. discriminate.
Qed.

Lemma read_timeline_returns (count : Z) (w w' : World) (v : pyval) :
  read_timeline R count w = (Ret v, w') ->
  present (environ w !! "TWITTER_USER_ID") /\ session_ready w = true.
Proof.
  intros Hrun. pose proof (read_timeline_run R count w) as Hcases.
  destruct (environ w !! "TWITTER_USER_ID") as [uid|]; [|congruence].
  destruct (String.eqb uid "") eqn:Hempty; [congruence|].
  destruct (session_ready w); [|congruence].
  split; [|reflexivity]. exists uid. split; [reflexivity|]. apply String.eqb_neq, Hempty.
Qed.

End Credentials.

(** ** configure *)

Lemma keeps_ret {A} (a : A) : keeps_dotenv (ret a).
Proof. intros w. reflexivity. Qed.

Lemma keeps_raise {A} (e : exn) : keeps_dotenv (@raise A e).
Proof. intros w. reflexivity. Qed.

Lemma keeps_lift {A} (r : result A) : keeps_dotenv (lift r).
Proof. intros w. reflexivity. Qed.

Lemma keeps_bind {A B} (m : M A) (k : A -> M B) :
  keeps_dotenv m -> (forall a, keeps_dotenv (k a)) -> keeps_dotenv (bind m k).
Proof.
  intros Hm Hk w. unfold bind. specialize (Hm w).
  destruct (m w) as [[a|e] w1]; cbn in *; [|exact Hm].
  rewrite Hk. exact Hm.
Qed.

Lemma keeps_try_except {A} (m : M A) (h : exn -> M A) :
  keeps_dotenv m -> (forall e, keeps_dotenv (h e)) -> keeps_dotenv (try_except m h).
Proof.
  intros Hm Hh w. unfold try_except. specialize (Hm w).
  destruct (m w) as [[a|e] w1]; cbn in *; [exact Hm|].
  rewrite Hh. exact Hm.
Qed.

Lemma keeps_try_except_only {A} (c : exn -> bool) (m : M A) (h : exn -> M A) :
  keeps_dotenv m -> (forall e, keeps_dotenv (h e)) -> keeps_dotenv (try_except_only c m h).
Proof.
  intros Hm Hh w. unfold try_except_only. specialize (Hm w).
  destruct (m w) as [[a|e] w1]; cbn in *; [exact Hm|].
  destruct (c e); cbn; [|exact Hm]. rewrite Hh. exact Hm.
Qed.

Lemma keeps_print (line : string) : keeps_dotenv (print line).
Proof. intros w. reflexivity. Qed.

Lemma keeps_input (prompt : string) : keeps_dotenv (input prompt).
Proof. intros w. unfold input. destruct (stdin w); reflexivity. Qed.

Lemma keeps_getenv (key : string) : keeps_dotenv (getenv key).
Proof. intros w. reflexivity. Qed.

Lemma keeps_load_dotenv : keeps_dotenv load_dotenv.
Proof. intros w. rewrite load_dotenv_loaded. apply dotenv_loaded. Qed.

Lemma keeps_path_exists_dotenv : keeps_dotenv path_exists_dotenv.
Proof. intros w. reflexivity. Qed.

Lemma keeps_issue {A} (answer : list call -> call -> result A) (c : call) :
  keeps_dotenv (issue answer c).
Proof. intros w. reflexivity. Qed.

Lemma keeps_put_oauth_session (s : OAuth1Session) : keeps_dotenv (put_oauth_session s).
Proof. intros w. reflexivity. Qed.

Lemma keeps_get_oauth_session : keeps_dotenv get_oauth_session.
Proof. intros w. reflexivity. Qed.

Create HintDb keeps.
#[export] Hint Resolve keeps_ret keeps_raise keeps_lift keeps_print keeps_input keeps_getenv
  keeps_load_dotenv keeps_path_exists_dotenv keeps_issue keeps_put_oauth_session
  keeps_get_oauth_session : keeps.

(** Walks through a computation built from binds, handlers and branches. *)
Ltac keeps :=
  repeat first
    [ progress auto with keeps
    | progress cbv zeta
    | match goal with
      | |- keeps_dotenv (bind _ _) => apply keeps_bind; [|intros ?]
      | |- keeps_dotenv (try_except _ _) => apply keeps_try_except; [|intros ?]
      | |- keeps_dotenv (try_except_only _ _ _) => apply keeps_try_except_only; [|intros ?]
      | |- keeps_dotenv (if ?b then _ else _) => destruct b
      | |- keeps_dotenv (match ?x with _ => _ end) => destruct x
      end ].

Lemma keeps__get_oauth : keeps_dotenv _get_oauth.
Proof. unfold _get_oauth. keeps. Qed.
#[export] Hint Resolve keeps__get_oauth : keeps.

Section Setup.

Variable R : Remote.

Lemma keeps_get_user_id_from_username (username : string) :
  keeps_dotenv (get_user_id_from_username R username).
Proof. unfold get_user_id_from_username. keeps. Qed.

Lemma keeps_is_configured (verbose : bool) : keeps_dotenv (is_configured R verbose).
Proof. unfold is_configured. keeps. Qed.

Lemma keeps_prompt_credentials : keeps_dotenv (prompt_credentials R).
Proof. unfold prompt_credentials. pose proof keeps_is_configured. keeps. Qed.

Lemma keeps_exchange_tokens (consumer_key consumer_secret : string) :
  keeps_dotenv (exchange_tokens R consumer_key consumer_secret).
Proof. unfold exchange_tokens. keeps. Qed.

Lemma keeps_resolve_user_id (username : string) : keeps_dotenv (resolve_user_id R username).
Proof. unfold resolve_user_id. pose proof keeps_get_user_id_from_username. keeps. Qed.

(** The lookup of the id cannot end the setup: its failure is replaced by
    the username. *)
Lemma resolve_user_id_returns (username : string) (w : World) :
  exists user_id w', resolve_user_id R username w = (Ret user_id, w')
    /\ forall e w1, get_user_id_from_username R username w = (Raise e, w1) ->
         user_id = PStr username.
Proof.
  unfold resolve_user_id, try_except.
  destruct (get_user_id_from_username R username w) as [[user_id|e] w1].
  - exists user_id, w1. split; [reflexivity|]. discriminate.
  - eexists _, _. split; [reflexivity|]. reflexivity.
Qed.

(** The six writes, when every value is a str. *)
Lemma save_credentials_strings (username uid ck cs a s : string) (w : World) :
  save_credentials username (PStr uid) ck cs (Some a) (Some s) w
  = (Ret tt, set_dotenv (Some (saved username uid ck cs a s (default ∅ (dotenv w)))) w).
Proof.
  unfold save_credentials, bind, path_exists_dotenv, saved.
  destruct (dotenv w) as [f|] eqn:Hfile; cbn; rewrite ?Hfile; reflexivity.
Qed.

End Setup.

Section Configure.

Variable R : Remote.

Lemma configure_declined (w w0 : World) (r : result (option (string * string * string))) :
  prompt_credentials R w = (r, w0) ->
  (forall entered, r <> Ret (Some entered)) ->
  dotenv (snd (configure R w)) = dotenv w.
Proof.
  intros Hprompt Hnone. unfold configure, bind. rewrite Hprompt.
  pose proof (keeps_prompt_credentials R w) as Hkeep. rewrite Hprompt in Hkeep.
  destruct r as [[entered|]|e]; [|exact Hkeep..].
  destruct (Hnone entered). reflexivity.
Qed.

Lemma configure_handshake (w w0 : World) (username ck cs : string) :
  prompt_credentials R w = (Ret (Some (username, ck, cs)), w0) ->
  configure R w = try_except (oauth_handshake R username ck cs) setup_failed w0
  /\ dotenv w0 = dotenv w.
Proof.
  intros Hprompt. unfold configure, bind. rewrite Hprompt. split; [reflexivity|].
  pose proof (keeps_prompt_credentials R w) as Hkeep. rewrite Hprompt in Hkeep. exact Hkeep.
Qed.

Lemma configure_aborted (w w0 w1 : World) (username ck cs : string)
    (r : result (option (option string * option string))) :
  prompt_credentials R w = (Ret (Some (username, ck, cs)), w0) ->
  exchange_tokens R ck cs w0 = (r, w1) ->
  (forall tokens, r <> Ret (Some tokens)) ->
  fst (configure R w) = Ret tt /\ dotenv (snd (configure R w)) = dotenv w.
Proof.
  intros Hprompt Hexchange Hnone.
  destruct (configure_handshake _ _ _ _ _ Hprompt) as [-> <-].
  pose proof (keeps_exchange_tokens R ck cs w0) as Hkeep. rewrite Hexchange in Hkeep.
  unfold try_except, oauth_handshake, bind. rewrite Hexchange.
  destruct r as [[tokens|]|e]; [|split; [reflexivity|exact Hkeep]..].
  destruct (Hnone tokens). reflexivity.
Qed.

Lemma configure_persists (w w0 w1 w2 : World) (username ck cs a s uid : string) :
  prompt_credentials R w = (Ret (Some (username, ck, cs)), w0) ->
  exchange_tokens R ck cs w0 = (Ret (Some (Some a, Some s)), w1) ->
  resolve_user_id R username w1 = (Ret (PStr uid), w2) ->
  fst (configure R w) = Ret tt
  /\ dotenv (snd (configure R w))
     = Some (saved username uid ck cs a s (default ∅ (dotenv w))).
Proof.
  intros Hprompt Hexchange Hresolve.
  destruct (configure_handshake _ _ _ _ _ Hprompt) as [-> <-].
  pose proof (keeps_exchange_tokens R ck cs w0) as Hk1. rewrite Hexchange in Hk1.
  pose proof (keeps_resolve_user_id R username w1) as Hk2. rewrite Hresolve in Hk2.
  cbn in Hk1, Hk2.
  unfold try_except, oauth_handshake, bind. rewrite Hexchange, Hresolve.
  rewrite save_credentials_strings. cbn. rewrite Hk2, Hk1. split; reflexivity.
Qed.

(** C3 (amended).  In every run of configure: when the prompts raise or
    the user declines, and when the request-token, authorization or
    access-token step raises or takes its early return, nothing is written
    to '.env' (in the second case configure returns normally); resolving
    the user id never raises; and when the persist step is reached with a
    str id and both access tokens, configure returns with all six fields
    written. *)
Theorem configure_terminal_states (w : World) :
  (forall r w0,
      prompt_credentials R w = (r, w0) ->
      (forall entered, r <> Ret (Some entered)) ->
      dotenv (snd (configure R w)) = dotenv w)
  /\ (forall username ck cs w0 r w1,
        prompt_credentials R w = (Ret (Some (username, ck, cs)), w0) ->
        exchange_tokens R ck cs w0 = (r, w1) ->
        (forall tokens, r <> Ret (Some tokens)) ->
        fst (configure R w) = Ret tt /\ dotenv (snd (configure R w)) = dotenv w)
  /\ (forall username w1,
        exists user_id w2, resolve_user_id R username w1 = (Ret user_id, w2)
                           /\ dotenv w2 = dotenv w1)
  /\ (forall username ck cs w0 a s w1 uid w2,
        prompt_credentials R w = (Ret (Some (username, ck, cs)), w0) ->
        exchange_tokens R ck cs w0 = (Ret (Some (Some a, Some s)), w1) ->
        resolve_user_id R username w1 = (Ret (PStr uid), w2) ->
        fst (configure R w) = Ret tt
        /\ dotenv (snd (configure R w))
           = Some (saved username uid ck cs a s (default ∅ (dotenv w)))).
Proof.
  split; [|split; [|split]].
  - intros r w0. apply configure_declined.
  - intros username ck cs w0 r w1. apply configure_aborted.
  - intros username w1.
    destruct (resolve_user_id_returns R username w1) as (user_id & w2 & Hrun & _).
    exists user_id, w2. split; [exact Hrun|].
    pose proof (keeps_resolve_user_id R username w1) as Hkeep.
    rewrite Hrun in Hkeep. exact Hkeep.
  - intros username ck cs w0 a s w1 uid w2. apply configure_persists.
Qed.

(** C8.  When configure has obtained the access token and its secret and
    the lookup of the numeric id then raises, configure still returns
    normally, and '.env' holds all six fields, TWITTER_USER_ID being the
    username as it was entered. *)
Theorem configure_falls_back_to_username
    (w w0 w1 w2 : World) (username ck cs a s : string) (e : exn) :
  prompt_credentials R w = (Ret (Some (username, ck, cs)), w0) ->
  exchange_tokens R ck cs w0 = (Ret (Some (Some a, Some s)), w1) ->
  get_user_id_from_username R username w1 = (Raise e, w2) ->
  fst (configure R w) = Ret tt
  /\ (exists store,
        dotenv (snd (configure R w)) = Some store
        /\ store = saved username username ck cs a s (default ∅ (dotenv w))
        /\ store !! "TWITTER_USERNAME" = Some username
        /\ store !! "TWITTER_USER_ID" = Some username
        /\ store !! "TWITTER_CONSUMER_KEY" = Some ck
        /\ store !! "TWITTER_CONSUMER_SECRET" = Some cs
        /\ store !! "TWITTER_ACCESS_TOKEN" = Some a
        /\ store !! "TWITTER_ACCESS_TOKEN_SECRET" = Some s).
Proof.
  intros Hprompt Hexchange Hlookup.
  destruct (resolve_user_id_returns R username w1) as (user_id & w3 & Hresolve & Hid).
  rewrite (Hid _ _ Hlookup) in Hresolve.
  destruct (configure_persists _ _ _ _ _ _ _ _ _ _ Hprompt Hexchange Hresolve) as [Hret Hstore].
  split; [exact Hret|]. eexists. split; [exact Hstore|]. split; [reflexivity|].
  unfold saved. repeat split; simplify_map_eq; reflexivity.
Qed.

End Configure.

(** ** The theorems on explicit runs *)

Import Fixture.

(** Against C1 as stated: a five-character message, a platform that
    answers 201 to every tweet, and still no POST, because no session can
    be built. *)
Lemma post_tweet_needs_session :
  (len "hello" <= 280)%nat
  /\ (forall h s body, exists r,
        http platform h (POST s tweets body) = Ret r /\ status_code r = 201)
  /\ fst (post_tweet platform "hello" (fresh [])) = Raise missing_credentials
  /\ trace (snd (post_tweet platform "hello" (fresh []))) = [].
Proof.
  split; [vm_compute; lia|]. split.
  - intros h s body. eexists. split; reflexivity.
  - split; vm_compute; reflexivity.
Qed.

Lemma post_tweet_spec_witness :
  post_tweet platform long_message (fresh [])
  = (Raise (Exn ValueError_ "Tweet exceeds 280 character limit"), fresh [])
  /\ fst (post_tweet platform "hello" with_secrets) = Ret created
  /\ trace (snd (post_tweet platform "hello" with_secrets))
     = [POST (session_of with_secrets) tweets (PDict [("text", PStr "hello")])]
  /\ fst (post_tweet platform "hello" (fresh [])) = Raise missing_credentials
  /\ (len Scenario.euro_message = 100%nat
      /\ String.length Scenario.euro_message = 300%nat
      /\ trace (snd (post_tweet platform Scenario.euro_message with_secrets))
         = [POST (session_of with_secrets) tweets
                 (PDict [("text", PStr Scenario.euro_message)])]).
Proof.
  split; [|split; [|split; [|split]]].
  - apply (proj1 (post_tweet_spec platform long_message (fresh []))).
    vm_compute. lia.
  - destruct (post_tweet_spec platform "hello" with_secrets) as (_ & Hready & _).
    destruct Hready as [_ Hres]; [vm_compute; lia|vm_compute; reflexivity|].
    apply (Hres {| status_code := 201; text := "Created"; json := Ret created |}).
    reflexivity.
  - destruct (post_tweet_spec platform "hello" with_secrets) as (_ & Hready & _).
    destruct Hready as [Htrace _]; [vm_compute; lia|vm_compute; reflexivity|].
    exact Htrace.
  - destruct (post_tweet_spec platform "hello" (fresh [])) as (_ & _ & Hnot).
    destruct Hnot as [Hres _]; [vm_compute; lia|vm_compute; reflexivity|].
    exact Hres.
  - split; [vm_compute; reflexivity|]. split; [vm_compute; reflexivity|].
    destruct (post_tweet_spec platform Scenario.euro_message with_secrets)
      as (_ & Hready & _).
    destruct Hready as [Htrace _]; [vm_compute; lia|vm_compute; reflexivity|].
    exact Htrace.
Defined.

(** Against C2 as stated: post_tweet returns although neither the
    username nor the user id is stored anywhere. *)
Lemma post_tweet_without_user_fields :
  fst (post_tweet platform "hello" with_secrets) = Ret created
  /\ dotenv with_secrets = None
  /\ environ with_secrets !! "TWITTER_USERNAME" = None
  /\ environ with_secrets !! "TWITTER_USER_ID" = None
  /\ _oauth_session with_secrets = None.
Proof. repeat split; vm_compute; reflexivity. Qed.

(** Against C3 as stated: the access-token response carries a token but
    no secret.  No step before the writes raises; the sixth write does,
    after five fields have reached '.env'.  The run ends in neither of
    the two states the claim allows. *)
Lemma configure_partial_write :
  fst (configure platform_without_secret (fresh typed)) = Ret tt
  /\ dotenv (fresh typed) = None
  /\ (dotenv partial_run ≫= (.!! "TWITTER_USERNAME")) = Some "alice"
  /\ (dotenv partial_run ≫= (.!! "TWITTER_USER_ID")) = Some "42"
  /\ (dotenv partial_run ≫= (.!! "TWITTER_CONSUMER_KEY")) = Some "ck"
  /\ (dotenv partial_run ≫= (.!! "TWITTER_CONSUMER_SECRET")) = Some "cs"
  /\ (dotenv partial_run ≫= (.!! "TWITTER_ACCESS_TOKEN")) = Some "at"
  /\ (dotenv partial_run ≫= (.!! "TWITTER_ACCESS_TOKEN_SECRET")) = None
  /\ dotenv partial_run <> dotenv (fresh typed)
  /\ (forall username user_id ck cs a s,
        dotenv partial_run <> Some (saved username user_id ck cs a s ∅)).
Proof.
  do 8 (split; [vm_compute; reflexivity|]). split.
  - intros Heq.
    assert (Hname : (dotenv partial_run ≫= (.!! "TWITTER_USERNAME")) = Some "alice")
      by (vm_compute; reflexivity).
    rewrite Heq in Hname. discriminate Hname.
  - intros username user_id ck cs a s Heq.
    assert (Hsecret : (dotenv partial_run ≫= (.!! "TWITTER_ACCESS_TOKEN_SECRET")) = None)
      by (vm_compute; reflexivity).
    rewrite Heq in Hsecret. unfold saved in Hsecret.
    cbn [mbind option_bind] in Hsecret. rewrite lookup_insert_eq in Hsecret.
    discriminate Hsecret.
Qed.

Lemma configure_terminal_states_witness :
  dotenv (snd (configure platform (fresh []))) = None
  /\ (fst (configure platform_offline (fresh typed)) = Ret tt
      /\ dotenv (snd (configure platform_offline (fresh typed))) = None)
  /\ (fst (configure platform (fresh typed)) = Ret tt
      /\ dotenv (snd (configure platform (fresh typed)))
         = Some (saved "alice" "42" "ck" "cs" "at" "ats" ∅)).
Proof.
  split; [|split].
  - apply (proj1 (configure_terminal_states platform (fresh []))
             (fst (prompt_credentials platform (fresh [])))
             (snd (prompt_credentials platform (fresh [])))).
    + vm_compute. reflexivity.
    + intros entered. vm_compute. intros H. discriminate H.
  - apply (proj1 (proj2 (configure_terminal_states platform_offline (fresh typed)))
             "alice" "ck" "cs"
             (snd (prompt_credentials platform_offline (fresh typed)))
             (fst (exchange_tokens platform_offline "ck" "cs"
                     (snd (prompt_credentials platform_offline (fresh typed)))))
             (snd (exchange_tokens platform_offline "ck" "cs"
                     (snd (prompt_credentials platform_offline (fresh typed)))))).
    + vm_compute. reflexivity.
    + vm_compute. reflexivity.
    + intros tokens. vm_compute. intros H. discriminate H.
  - apply (proj2 (proj2 (proj2 (configure_terminal_states platform (fresh typed))))
             "alice" "ck" "cs"
             (snd (prompt_credentials platform (fresh typed)))
             "at" "ats"
             (snd (exchange_tokens platform "ck" "cs"
                     (snd (prompt_credentials platform (fresh typed)))))
             "42"
             (snd (resolve_user_id platform "alice"
                     (snd (exchange_tokens platform "ck" "cs"
                             (snd (prompt_credentials platform (fresh typed)))))))).
    + vm_compute. reflexivity.
    + vm_compute. reflexivity.
    + vm_compute. reflexivity.
Defined.

Lemma get_latest_tweets_caps_count_witness :
  exists s params,
    trace (snd (get_latest_tweets platform "alice" 200 configured))
    = [lookup_call "alice" configured; GET s (user_tweets (PStr "42")) params]
    /\ assoc "max_results" params = Some (PInt 100).
Proof.
  destruct (get_latest_tweets_caps_count platform "alice" 200 configured)
    as (new & Htrace & Hcap & Hsent).
  assert (Hlookup : get_user_id_from_username platform "alice" configured
                    = (Ret (PStr "42"),
                       snd (get_user_id_from_username platform "alice" configured)))
    by (vm_compute; reflexivity).
  destruct (Hsent _ _ Hlookup) as (s & params & Hnew).
  exists s, params. split.
  - rewrite Htrace, Hnew. reflexivity.
  - apply (Hcap s (PStr "42") params). rewrite Hnew.
    apply list_elem_of_In. right. left. reflexivity.
Defined.

Lemma read_timeline_passes_count_witness :
  trace (snd (read_timeline platform 200 configured))
  = [GET (session_of configured) (reverse_chronological "42") (timeline_params 200)]
  /\ assoc "max_results" (timeline_params 200) = Some (PInt 200).
Proof.
  destruct (read_timeline_passes_count platform 200 configured)
    as (new & Htrace & Hcount & Hsent).
  rewrite Htrace, (Hsent "42").
  - split; [reflexivity|]. reflexivity.
  - vm_compute. reflexivity.
  - intros H. discriminate H.
  - vm_compute. reflexivity.
Defined.

Lemma perform_action_dispatch_witness :
  perform_action platform "retweet" no_kwargs (fresh [])
  = (Raise (Exn Exception_ "Unknown action: retweet"), fresh [])
  /\ perform_action platform "read-timeline" no_kwargs configured
     = read_timeline platform 10 configured.
Proof.
  split.
  - apply (proj1 (perform_action_dispatch platform "retweet" no_kwargs (fresh []))).
    unfold registered. intros Hin. apply list_elem_of_In in Hin.
    repeat (destruct Hin as [Hin|Hin]; [discriminate Hin|]). destruct Hin.
  - apply (proj1 (proj2 (proj2 (proj2 (proj2
             (perform_action_dispatch platform "read-timeline" no_kwargs configured)))))).
Defined.

Lemma configure_falls_back_to_username_witness :
  fst (configure platform_without_user (fresh typed)) = Ret tt
  /\ exists store,
       dotenv (snd (configure platform_without_user (fresh typed))) = Some store
       /\ store !! "TWITTER_USER_ID" = Some "alice".
Proof.
  destruct (configure_falls_back_to_username platform_without_user
              (fresh typed)
              (snd (prompt_credentials platform_without_user (fresh typed)))
              (snd (exchange_tokens platform_without_user "ck" "cs"
                      (snd (prompt_credentials platform_without_user (fresh typed)))))
              (snd (get_user_id_from_username platform_without_user "alice"
                      (snd (exchange_tokens platform_without_user "ck" "cs"
                              (snd (prompt_credentials platform_without_user (fresh typed)))))))
              "alice" "ck" "cs" "at" "ats"
              (request_error {| status_code := 404; text := "Not Found";
                                json := Ret (PDict []) |}))
    as (Hret & store & Hstore & _ & _ & Hid & _).
  - vm_compute. reflexivity.
  - vm_compute. reflexivity.
  - vm_compute. reflexivity.
  - split; [exact Hret|]. exists store. split; [exact Hstore|exact Hid].
Defined.

Lemma is_configured_without_dotenv_witness :
  is_configured platform true (fresh []) = (Ret false, fresh []).
Proof. apply is_configured_without_dotenv. reflexivity. Defined.

(** * Further properties of the adapter *)

(** ** The cached session *)

Lemma session_ready_cached (w : World) (s : OAuth1Session) :
  _oauth_session w = Some s ->
  session_ready w = true /\ session_of w = s /\ with_session w = w.
Proof.
  intros Hs. unfold session_ready, session_of, with_session. rewrite Hs. auto.
Qed.

Lemma _get_oauth_returns (w w1 : World) (s : OAuth1Session) :
  _get_oauth w = (Ret s, w1) ->
  session_ready w = true /\ s = session_of w /\ w1 = with_session w.
Proof.
  intros Hrun. destruct (session_ready w) eqn:Hready.
  - rewrite (_get_oauth_ready w Hready) in Hrun. injection Hrun as <- <-. auto.
  - rewrite (_get_oauth_not_ready w Hready) in Hrun. discriminate Hrun.
Qed.

(** X1.  The session is built once: as soon as _get_oauth has returned a
    session it is cached, and every later call returns that same session
    and changes nothing, whatever has become of os.environ and of '.env'
    in the meantime. *)
Theorem _get_oauth_builds_once (w w1 : World) (s : OAuth1Session) :
  _get_oauth w = (Ret s, w1) ->
  _oauth_session w1 = Some s
  /\ forall env file,
       _get_oauth (set_dotenv file (set_environ env w1))
       = (Ret s, set_dotenv file (set_environ env w1)).
Proof.
  intros Hrun. destruct (_get_oauth_returns _ _ _ Hrun) as (_ & -> & ->).
  pose proof (session_with_session w) as Hcached. split; [exact Hcached|].
  intros env file. unfold _get_oauth, bind, get_oauth_session. cbn.
  rewrite Hcached. reflexivity.
Qed.

(** X2.  Building the session stays inside the process: _get_oauth
    issues no call, does not write '.env' and does not touch the console.
    When it raises, the exception is the ValueError of the missing
    credentials, no session is cached, and os.environ has been completed
    from '.env'. *)
Theorem _get_oauth_stays_local (w : World) :
  trace (snd (_get_oauth w)) = trace w
  /\ dotenv (snd (_get_oauth w)) = dotenv w
  /\ stdin (snd (_get_oauth w)) = stdin w
  /\ stdout (snd (_get_oauth w)) = stdout w
  /\ forall e, fst (_get_oauth w) = Raise e ->
       e = missing_credentials
       /\ _oauth_session (snd (_get_oauth w)) = None
       /\ environ (snd (_get_oauth w)) = effective_environ w.
Proof.
  destruct (session_ready w) eqn:Hready.
  - rewrite (_get_oauth_ready w Hready). cbn [fst snd].
    split; [apply trace_with_session|]. split; [apply dotenv_with_session|].
    unfold with_session, loaded.
    destruct (_oauth_session w); destruct (dotenv w); cbn; repeat split; discriminate.
  - rewrite (_get_oauth_not_ready w Hready). cbn [fst snd].
    split; [apply trace_loaded|]. split; [apply dotenv_loaded|].
    assert (Hnone : _oauth_session w = None).
    { unfold session_ready in Hready. destruct (_oauth_session w); [discriminate Hready|].
      reflexivity. }
    split; [unfold loaded; destruct (dotenv w); reflexivity|].
    split; [unfold loaded; destruct (dotenv w); reflexivity|].
    intros e [= <-]. split; [reflexivity|]. split.
    + rewrite session_loaded. exact Hnone.
    + apply environ_loaded.
Qed.

(** ** The lookup of a user id *)

Section Lookup.

Variable R : Remote.

Lemma get_user_id_from_username_ready (username : string) (w : World) :
  session_ready w = true ->
  get_user_id_from_username R username w
  = (response <~ http R (trace w) (lookup_call username w);;
     if negb (status_code response =? 200) then Raise (request_error response)
     else json_response <~ json response;;
          data <~ py_get json_response "data" PNone;;
          if negb (truthy data) then Raise (no_user_found username)
          else data <~ getitem_str json_response "data";;
               first <~ getitem_0 data;;
               getitem_str first "id",
     sent (lookup_call username w) w).
Proof.
  intros Hready. unfold get_user_id_from_username, bind.
  rewrite (_get_oauth_ready w Hready). unfold issue. cbn [fst snd].
  rewrite trace_with_session. fold (lookup_call username w). unfold sent.
  destruct (http R (trace w) (lookup_call username w)) as [response|e]; [|reflexivity].
  cbn [rbind]. destruct (negb (status_code response =? 200)); [reflexivity|].
  unfold lift at 1. destruct (json response) as [body|e]; [|reflexivity].
  cbn [rbind]. unfold lift at 1. destruct (py_get body "data" PNone) as [data|e]; [|reflexivity].
  cbn [rbind]. destruct (negb (truthy data)); reflexivity.
Qed.

(** X3.  What get_user_id_from_username makes of the platform's answer:
    a status other than 200 is the request error; a 200 whose body has no
    "data", or an empty or otherwise falsy one, is "No user found for
    username: ..."; a 200 whose "data" is a list starting with a user is
    the "id" of that first user, whatever follows in the list. *)
Theorem get_user_id_from_username_answer
    (username : string) (w : World) (response : Response) :
  session_ready w = true ->
  http R (trace w) (lookup_call username w) = Ret response ->
  (status_code response <> 200 ->
     fst (get_user_id_from_username R username w) = Raise (request_error response))
  /\ (forall d,
        status_code response = 200 -> json response = Ret (PDict d) ->
        truthy (default PNone (assoc "data" d)) = false ->
        fst (get_user_id_from_username R username w) = Raise (no_user_found username))
  /\ (forall d user others id,
        status_code response = 200 -> json response = Ret (PDict d) ->
        assoc "data" d = Some (PList (PDict user :: others)) ->
        assoc "id" user = Some id ->
        fst (get_user_id_from_username R username w) = Ret id).
Proof.
  intros Hready Hanswer. rewrite (get_user_id_from_username_ready _ _ Hready), Hanswer.
  cbn [fst rbind]. split; [|split].
  - intros Hstatus. apply Z.eqb_neq in Hstatus. rewrite Hstatus. reflexivity.
  - intros d -> -> Hfalsy. cbn. rewrite Hfalsy. reflexivity.
  - intros d user others id -> -> Hdata Hid. cbn. rewrite Hdata. cbn. rewrite Hid. reflexivity.
Qed.

(** X4.  get_latest_tweets hides the cause of a failed lookup: whatever
    the lookup raises comes out as a plain Exception whose text is
    "Failed to get user ID for username <name>: <cause>", and nothing
    more is requested.  This includes the missing credentials: they
    surface as that Exception, not as the ValueError the other calls
    raise, and without any call having been issued. *)
Theorem get_latest_tweets_wraps_lookup_failure (username : string) (count : Z) (w : World) :
  (forall e w1,
      get_user_id_from_username R username w = (Raise e, w1) ->
      get_latest_tweets R username count w = (Raise (lookup_failed username e), w1))
  /\ (session_ready w = false ->
      fst (get_latest_tweets R username count w)
      = Raise (lookup_failed username missing_credentials)
      /\ trace (snd (get_latest_tweets R username count w)) = trace w).
Proof.
  split.
  - intros e w1 Hlookup. unfold get_latest_tweets, bind, try_except.
    rewrite Hlookup. reflexivity.
  - intros Hnot. unfold get_latest_tweets, bind, try_except.
    rewrite (proj1 (get_user_id_from_username_run R username w) Hnot).
    split; [reflexivity|apply trace_loaded].
Qed.

(** X5.  Once the lookup has returned an id, get_latest_tweets answers
    from the second response alone: a status other than 200 is the
    request error, unwrapped; a 200 returns the "data" of the body, and
    the empty list when the body has no "data". *)
Theorem get_latest_tweets_answer
    (username : string) (count : Z) (w w1 : World) (user_id : pyval) (response : Response) :
  get_user_id_from_username R username w = (Ret user_id, w1) ->
  http R (trace w1) (tweets_call user_id count w) = Ret response ->
  (status_code response <> 200 ->
     fst (get_latest_tweets R username count w) = Raise (request_error response))
  /\ (forall d,
        status_code response = 200 -> json response = Ret (PDict d) ->
        fst (get_latest_tweets R username count w) = Ret (default (PList []) (assoc "data" d))).
Proof.
  intros Hlookup Hanswer.
  assert (Hready : session_ready w = true).
  { destruct (session_ready w) eqn:H; [reflexivity|].
    rewrite (proj1 (get_user_id_from_username_run R username w) H) in Hlookup.
    discriminate Hlookup. }
  pose proof (proj2 (get_user_id_from_username_run R username w) Hready) as Hw1.
  rewrite Hlookup in Hw1. cbn in Hw1. subst w1.
  destruct (session_ready_sent (lookup_call username w) w) as (Hr & Hs & Hw).
  unfold get_latest_tweets, bind, try_except. rewrite Hlookup.
  rewrite (_get_oauth_ready _ Hr), Hs, Hw. unfold issue. cbn [fst snd].
  fold (user_tweets_params count). fold (tweets_call user_id count w).
  rewrite Hanswer. split.
  - intros Hstatus. apply Z.eqb_neq in Hstatus. rewrite Hstatus. reflexivity.
  - intros d -> ->. reflexivity.
Qed.

End Lookup.

(** ** like_tweet, and the user id of the two timeline calls *)

Section UserId.

Variable R : Remote.

Lemma like_tweet_run (tweet_id : string) (w : World) :
  match environ w !! "TWITTER_USER_ID" with
  | Some uid =>
      if String.eqb uid "" then like_tweet R tweet_id w = (Raise missing_user_id, w)
      else if session_ready w
           then like_tweet R tweet_id w
                = (response <~ http R (trace w) (like_call uid tweet_id w);;
                   if negb (status_code response =? 200)
                   then Raise (request_error response)
                   else json response,
                   sent (like_call uid tweet_id w) w)
           else like_tweet R tweet_id w = (Raise missing_credentials, loaded w)
  | None => like_tweet R tweet_id w = (Raise missing_user_id, w)
  end.
Proof.
  unfold like_tweet, bind, getenv.
  destruct (environ w !! "TWITTER_USER_ID") as [uid|]; [|reflexivity].
  destruct (String.eqb uid ""); [reflexivity|].
  destruct (session_ready w) eqn:Hready.
  - rewrite (_get_oauth_ready w Hready). unfold issue. cbn [fst snd].
    rewrite trace_with_session. fold (like_call uid tweet_id w). unfold sent.
    destruct (http R (trace w) (like_call uid tweet_id w)) as [response|e]; [|reflexivity].
    cbn [rbind]. destruct (negb (status_code response =? 200)); reflexivity.
  - rewrite (_get_oauth_not_ready w Hready). reflexivity.
Qed.

(** X6.  like_tweet, given a user id in os.environ: with a session at
    hand it issues exactly one POST, to the likes of that user, carrying
    the tweet id, and on a response it returns response.json() when the
    status is 200 and raises the request error otherwise (so also on
    201, the status post_tweet waits for); without a session it raises
    the ValueError of the missing credentials and issues nothing. *)
Theorem like_tweet_spec (tweet_id uid : string) (w : World) :
  environ w !! "TWITTER_USER_ID" = Some uid -> uid <> "" ->
  (session_ready w = true ->
     trace (snd (like_tweet R tweet_id w)) = (trace w ++ [like_call uid tweet_id w])%list
     /\ forall response,
          http R (trace w) (like_call uid tweet_id w) = Ret response ->
          fst (like_tweet R tweet_id w)
          = if status_code response =? 200 then json response
            else Raise (request_error response))
  /\ (session_ready w = false ->
      fst (like_tweet R tweet_id w) = Raise missing_credentials
      /\ trace (snd (like_tweet R tweet_id w)) = trace w).
Proof.
  intros Hid Hne. pose proof (like_tweet_run tweet_id w) as Hrun.
  rewrite Hid in Hrun. apply String.eqb_neq in Hne. rewrite Hne in Hrun.
  split; intros Hready; rewrite Hready in Hrun; rewrite Hrun; cbn [fst snd].
  - split; [reflexivity|]. intros response ->. cbn [rbind].
    destruct (status_code response =? 200); reflexivity.
  - split; [reflexivity|apply trace_loaded].
Qed.

(** X7.  read_timeline and like_tweet look for TWITTER_USER_ID in
    os.environ before anything has loaded '.env': when os.environ has no
    id, or an empty one, both raise the ValueError at once and leave the
    world as it was, and what '.env' holds makes no difference. *)
Theorem user_id_is_read_before_dotenv (w : World) :
  (environ w !! "TWITTER_USER_ID" = None \/ environ w !! "TWITTER_USER_ID" = Some "") ->
  (forall count, read_timeline R count w = (Raise missing_user_id, w))
  /\ (forall tweet_id, like_tweet R tweet_id w = (Raise missing_user_id, w)).
Proof.
  intros Hid. split.
  - intros count. pose proof (read_timeline_run R count w) as Hrun.
    destruct Hid as [Hid|Hid]; rewrite Hid in Hrun; exact Hrun.
  - intros tweet_id. pose proof (like_tweet_run tweet_id w) as Hrun.
    destruct Hid as [Hid|Hid]; rewrite Hid in Hrun; exact Hrun.
Qed.

Lemma is_configured_run (verbose : bool) (w : World) :
  is_configured R verbose w
  = match dotenv w with
    | None => (Ret false, w)
    | Some _ =>
        if all (required_fields w)
        then match tweepy_get_me R (trace w) (validation_call w) with
             | Ret _ => (Ret true, validated w)
             | Raise e =>
                 (Ret false,
                  if verbose
                  then snd (print ("There was an error validating your Twitter credentials: "
                                   ++ exc_str e) (validated w))
                  else validated w)
             end
        else (Ret false, loaded w)
    end.
Proof.
  unfold is_configured, bind, path_exists_dotenv, try_except.
  destruct (dotenv w) as [f|] eqn:Hfile; [|reflexivity].
  rewrite bool_decide_eq_true_2 by eauto. cbn [negb fst snd].
  rewrite load_dotenv_loaded. unfold getenv. cbn [fst snd].
  rewrite environ_loaded.
  replace (all (required_fields w))
    with (all [effective_environ w !! "TWITTER_CONSUMER_KEY";
               effective_environ w !! "TWITTER_CONSUMER_SECRET";
               effective_environ w !! "TWITTER_ACCESS_TOKEN";
               effective_environ w !! "TWITTER_ACCESS_TOKEN_SECRET";
               effective_environ w !! "TWITTER_USER_ID"]) by reflexivity.
  destruct (all _); cbn [negb]; [|reflexivity].
  unfold issue. cbn [fst snd]. rewrite trace_loaded. fold (validation_call w).
  fold (validated w).
  destruct (tweepy_get_me R (trace w) (validation_call w)) as [[]|e]; [reflexivity|].
  destruct verbose; reflexivity.
Qed.

Lemma all_app (l1 l2 : list (option string)) : all (l1 ++ l2) = all l1 && all l2.
Proof. unfold all. apply forallb_app. Qed.

Lemma effective_environ_loaded (w : World) :
  effective_environ (loaded w) = effective_environ w.
Proof.
  unfold effective_environ, loaded. destruct (dotenv w) as [f|] eqn:Hfile; cbn.
  - rewrite Hfile. apply map_eq. intros k. rewrite !lookup_union.
    destruct (environ w !! k), (f !! k); reflexivity.
  - rewrite Hfile. reflexivity.
Qed.

(** X8.  When is_configured has answered True, the process is ready for
    every call: os.environ now holds a non-empty user id, a session can
    be built, and read_timeline and like_tweet each issue exactly their
    one request for that user. *)
Theorem is_configured_prepares_calls (verbose : bool) (w w' : World) :
  is_configured R verbose w = (Ret true, w') ->
  session_ready w' = true
  /\ exists uid,
       environ w' !! "TWITTER_USER_ID" = Some uid /\ uid <> ""
       /\ (forall count,
             trace (snd (read_timeline R count w'))
             = (trace w' ++ [timeline_call uid count w'])%list)
       /\ (forall tweet_id,
             trace (snd (like_tweet R tweet_id w'))
             = (trace w' ++ [like_call uid tweet_id w'])%list).
Proof.
  intros Hrun. rewrite is_configured_run in Hrun.
  destruct (dotenv w) as [f|] eqn:Hfile; [|discriminate Hrun].
  destruct (all (required_fields w)) eqn:Hall; [|discriminate Hrun].
  destruct (tweepy_get_me R (trace w) (validation_call w)) as [[]|e];
    [|discriminate Hrun].
  injection Hrun as <-.
  unfold required_fields in Hall. rewrite all_app in Hall.
  apply andb_true_iff in Hall as [Hsecrets Hid].
  assert (Hready : session_ready (validated w) = true).
  { unfold session_ready, validated. cbn. rewrite session_loaded.
    destruct (_oauth_session w); [reflexivity|].
    unfold stored_secrets in *. cbn [effective_environ dotenv set_trace environ].
    change (effective_environ (set_trace (trace w ++ [validation_call w]) (loaded w)))
      with (effective_environ (loaded w)).
    rewrite effective_environ_loaded. exact Hsecrets. }
  split; [exact Hready|].
  cbn in Hid. rewrite andb_true_r in Hid. apply truthy_str_present in Hid.
  destruct Hid as (uid & Hid & Hne). exists uid.
  assert (Henv : environ (validated w) !! "TWITTER_USER_ID" = Some uid).
  { unfold validated. cbn. rewrite environ_loaded. exact Hid. }
  split; [exact Henv|]. split; [exact Hne|]. split.
  - intros count. pose proof (read_timeline_run R count (validated w)) as Hcases.
    rewrite Henv, Hready in Hcases. apply String.eqb_neq in Hne. rewrite Hne in Hcases.
    rewrite Hcases. reflexivity.
  - intros tweet_id. pose proof (like_tweet_run tweet_id (validated w)) as Hcases.
    rewrite Henv, Hready in Hcases. apply String.eqb_neq in Hne. rewrite Hne in Hcases.
    rewrite Hcases. reflexivity.
Qed.

End UserId.

(** ** What a computation leaves alone *)

Lemma preserves_ret {A B} (f : World -> B) (a : A) : preserves f (ret a).
Proof. intros w. reflexivity. Qed.

Lemma preserves_raise {A B} (f : World -> B) (e : exn) : preserves f (@raise A e).
Proof. intros w. reflexivity. Qed.

Lemma preserves_lift {A B} (f : World -> B) (r : result A) : preserves f (lift r).
Proof. intros w. reflexivity. Qed.

Lemma preserves_bind {A A' B} (f : World -> B) (m : M A) (k : A -> M A') :
  preserves f m -> (forall a, preserves f (k a)) -> preserves f (bind m k).
Proof.
  intros Hm Hk w. unfold bind. specialize (Hm w).
  destruct (m w) as [[a|e] w1]; cbn in *; [|exact Hm].
  rewrite Hk. exact Hm.
Qed.

Lemma preserves_try_except {A B} (f : World -> B) (m : M A) (h : exn -> M A) :
  preserves f m -> (forall e, preserves f (h e)) -> preserves f (try_except m h).
Proof.
  intros Hm Hh w. unfold try_except. specialize (Hm w).
  destruct (m w) as [[a|e] w1]; cbn in *; [exact Hm|].
  rewrite Hh. exact Hm.
Qed.

Lemma preserves_try_except_only {A B} (f : World -> B) (c : exn -> bool)
    (m : M A) (h : exn -> M A) :
  preserves f m -> (forall e, preserves f (h e)) -> preserves f (try_except_only c m h).
Proof.
  intros Hm Hh w. unfold try_except_only. specialize (Hm w).
  destruct (m w) as [[a|e] w1]; cbn in *; [exact Hm|].
  destruct (c e); cbn; [|exact Hm]. rewrite Hh. exact Hm.
Qed.

Lemma preserves_getenv {B} (f : World -> B) (key : string) : preserves f (getenv key).
Proof. intros w. reflexivity. Qed.

Lemma preserves_get_oauth_session {B} (f : World -> B) : preserves f get_oauth_session.
Proof. intros w. reflexivity. Qed.

Lemma preserves_path_exists_dotenv {B} (f : World -> B) : preserves f path_exists_dotenv.
Proof. intros w. reflexivity. Qed.

Lemma preserves_print {B} (f : World -> B) (line : string) :
  (forall o w, f (set_stdout o w) = f w) -> preserves f (print line).
Proof. intros Hf w. apply Hf. Qed.

Lemma preserves_input {B} (f : World -> B) (prompt : string) :
  (forall o w, f (set_stdout o w) = f w) -> (forall i w, f (set_stdin i w) = f w) ->
  preserves f (input prompt).
Proof.
  intros Hout Hin w. unfold input. destruct (stdin w); cbn; rewrite ?Hin, Hout; reflexivity.
Qed.

Lemma preserves_issue {A B} (f : World -> B) (answer : list call -> call -> result A)
    (c : call) :
  (forall t w, f (set_trace t w) = f w) -> preserves f (issue answer c).
Proof. intros Hf w. apply Hf. Qed.

Lemma preserves_load_dotenv {B} (f : World -> B) :
  (forall e w, f (set_environ e w) = f w) -> preserves f load_dotenv.
Proof. intros Hf w. unfold load_dotenv. destruct (dotenv w); cbn; [apply Hf|reflexivity]. Qed.

Lemma preserves_put_oauth_session {B} (f : World -> B) (s : OAuth1Session) :
  (forall o w, f (set_oauth_session o w) = f w) -> preserves f (put_oauth_session s).
Proof. intros Hf w. apply Hf. Qed.

Lemma preserves_set_key {B} (f : World -> B) (key : string) (value : pyval) :
  (forall d w, f (set_dotenv d w) = f w) -> preserves f (set_key key value).
Proof. intros Hf w. destruct value; cbn; try reflexivity. apply Hf. Qed.

Lemma preserves_create_dotenv {B} (f : World -> B) :
  (forall d w, f (set_dotenv d w) = f w) -> preserves f create_dotenv.
Proof. intros Hf w. apply Hf. Qed.

(** Walks through a computation; each primitive asks that the observation
    ignore the field the primitive writes. *)
Ltac frame :=
  repeat first
    [ progress cbv zeta
    | match goal with
      | |- preserves _ (ret _) => apply preserves_ret
      | |- preserves _ (raise _) => apply preserves_raise
      | |- preserves _ (lift _) => apply preserves_lift
      | |- preserves _ (bind _ _) => apply preserves_bind; [|intros ?]
      | |- preserves _ (try_except _ _) => apply preserves_try_except; [|intros ?]
      | |- preserves _ (try_except_only _ _ _) =>
          apply preserves_try_except_only; [|intros ?]
      | |- preserves _ (getenv _) => apply preserves_getenv
      | |- preserves _ get_oauth_session => apply preserves_get_oauth_session
      | |- preserves _ path_exists_dotenv => apply preserves_path_exists_dotenv
      | |- preserves _ (print _) => apply preserves_print; intros; reflexivity
      | |- preserves _ (input _) => apply preserves_input; intros; reflexivity
      | |- preserves _ (issue _ _) => apply preserves_issue; intros; reflexivity
      | |- preserves _ load_dotenv => apply preserves_load_dotenv; intros; reflexivity
      | |- preserves _ (put_oauth_session _) =>
          apply preserves_put_oauth_session; intros; reflexivity
      | |- preserves _ (set_key _ _) => apply preserves_set_key; intros; reflexivity
      | |- preserves _ create_dotenv => apply preserves_create_dotenv; intros; reflexivity
      | |- preserves _ (if ?b then _ else _) => destruct b
      | |- preserves _ (match ?x with _ => _ end) => destruct x
      | H : _ |- _ => solve [apply H]
      end ].

Section Quiet.

Variable R : Remote.

(** X9.  is_configured only looks: it never writes '.env', reads no
    input and caches no session.  With verbose off it prints nothing.
    When '.env' exists and the five fields are present it issues exactly
    one call, the get_me with the four secrets; otherwise it issues none.
    When '.env' exists it leaves os.environ completed from the file. *)
Theorem is_configured_only_looks (verbose : bool) (w : World) :
  let w' := snd (is_configured R verbose w) in
  dotenv w' = dotenv w
  /\ stdin w' = stdin w
  /\ _oauth_session w' = _oauth_session w
  /\ (verbose = false -> stdout w' = stdout w)
  /\ (is_Some (dotenv w) -> all (required_fields w) = true ->
      trace w' = (trace w ++ [validation_call w])%list)
  /\ (dotenv w = None \/ all (required_fields w) = false -> trace w' = trace w)
  /\ (is_Some (dotenv w) -> environ w' = effective_environ w).
Proof.
  cbv zeta. split; [|split; [|split; [|split; [|split; [|split]]]]].
  - assert (H : preserves dotenv (is_configured R verbose))
      by (unfold is_configured; frame). apply H.
  - assert (H : preserves stdin (is_configured R verbose))
      by (unfold is_configured; frame). apply H.
  - assert (H : preserves _oauth_session (is_configured R verbose))
      by (unfold is_configured; frame). apply H.
  - intros ->. assert (H : preserves stdout (is_configured R false))
      by (unfold is_configured; frame). apply H.
  - intros [f Hfile] Hall. rewrite is_configured_run, Hfile, Hall.
    destruct (tweepy_get_me R (trace w) (validation_call w)) as [[]|e]; cbn [snd].
    + unfold validated. reflexivity.
    + destruct verbose; reflexivity.
  - intros Hnot. rewrite is_configured_run.
    destruct (dotenv w) as [f|] eqn:Hfile; [|reflexivity].
    destruct Hnot as [Hnone|Hall]; [discriminate Hnone|].
    rewrite Hall. apply trace_loaded.
  - intros [f Hfile]. rewrite is_configured_run, Hfile.
    destruct (all (required_fields w)); [|apply environ_loaded].
    destruct (tweepy_get_me R (trace w) (validation_call w)) as [[]|e]; cbn [snd].
    + unfold validated. cbn. apply environ_loaded.
    + destruct verbose; cbn; apply environ_loaded.
Qed.

End Quiet.

(** ** More on configure *)

Section Setup2.

Variable R : Remote.

Lemma stdin_loaded (w : World) : stdin (loaded w) = stdin w.
Proof. unfold loaded. destruct (dotenv w); reflexivity. Qed.

Lemma stdout_loaded (w : World) : stdout (loaded w) = stdout w.
Proof. unfold loaded. destruct (dotenv w); reflexivity. Qed.

Lemma bind_Ret {A B} (m : M A) (k : A -> M B) (w w1 : World) (a : A) :
  m w = (Ret a, w1) -> bind m k w = k a w1.
Proof. intros H. unfold bind. rewrite H. reflexivity. Qed.

Lemma bind_assoc {A B C} (m : M A) (k : A -> M B) (k' : B -> M C) (w : World) :
  bind (bind m k) k' w = bind m (fun a => bind (k a) k') w.
Proof. unfold bind. destruct (m w) as [[a|e] w1]; reflexivity. Qed.

Lemma print_eq (line : string) (w : World) :
  print line w = (Ret tt, set_stdout (stdout w ++ [line]) w).
Proof. reflexivity. Qed.

Lemma input_line (prompt line : string) (rest : list string) (w : World) :
  stdin w = line :: rest ->
  input prompt w = (Ret line, set_stdin rest (set_stdout (stdout w ++ [prompt]) w)).
Proof. intros H. unfold input. rewrite H. reflexivity. Qed.

(** X10.  When the credentials check out and the user answers anything
    whose lower case is not "y", configure stops there: it returns, '.env'
    and the cached session are as before, the one line was read, and the
    only call issued is the validation. *)
Theorem configure_declined_keeps_everything
    (w : World) (answer : string) (rest : list string) :
  is_Some (dotenv w) ->
  all (required_fields w) = true ->
  tweepy_get_me R (trace w) (validation_call w) = Ret tt ->
  stdin w = answer :: rest ->
  lower answer <> "y" ->
  fst (configure R w) = Ret tt
  /\ dotenv (snd (configure R w)) = dotenv w
  /\ _oauth_session (snd (configure R w)) = _oauth_session w
  /\ stdin (snd (configure R w)) = rest
  /\ trace (snd (configure R w)) = (trace w ++ [validation_call w])%list.
Proof.
  intros [f Hfile] Hall Hme Hstdin Hanswer.
  set (w0 := set_stdout (stdout w ++ ["TWITTER AUTHENTICATION SETUP"]) w).
  assert (Hconf : is_configured R false w0 = (Ret true, validated w0)).
  { rewrite is_configured_run. change (dotenv w0) with (dotenv w). rewrite Hfile.
    change (required_fields w0) with (required_fields w). rewrite Hall.
    change (validation_call w0) with (validation_call w).
    change (trace w0) with (trace w). rewrite Hme. reflexivity. }
  assert (Hin : stdin (set_stdout (stdout (validated w0)
                                   ++ ["Twitter API is already configured."])
                                  (validated w0)) = answer :: rest).
  { cbn. rewrite stdin_loaded. exact Hstdin. }
  apply String.eqb_neq in Hanswer.
  unfold configure, prompt_credentials.
  rewrite bind_assoc, (bind_Ret _ _ _ _ _ (print_eq _ w)). fold w0.
  rewrite bind_assoc, (bind_Ret _ _ _ _ _ Hconf).
  rewrite !bind_assoc, (bind_Ret _ _ _ _ _ (print_eq _ _)).
  rewrite !bind_assoc, (bind_Ret _ _ _ _ _ (input_line _ _ _ _ Hin)).
  unfold bind, ret. rewrite Hanswer. cbn.
  rewrite dotenv_loaded, session_loaded. auto.
Qed.

(** X12.  When the request-token step raises, configure returns at
    once: fetch_request_token is the last call issued, the PIN is never
    asked for, nothing is written and no session is installed.  For a
    ValueError (the platform refusing the consumer key) the last line
    printed is the hint about the consumer key or secret; for any other
    exception it is the general setup error with the exception's text. *)
Theorem configure_request_token_failure
    (w w0 : World) (username ck cs : string) (e : exn) :
  prompt_credentials R w = (Ret (Some (username, ck, cs)), w0) ->
  token_endpoint R (trace w0) (fetch_request_token (consumer_session ck cs) request_token_url)
  = Raise e ->
  let w' := snd (configure R w) in
  fst (configure R w) = Ret tt
  /\ trace w'
     = (trace w0 ++ [fetch_request_token (consumer_session ck cs) request_token_url])%list
  /\ stdin w' = stdin w0
  /\ dotenv w' = dotenv w
  /\ _oauth_session w' = _oauth_session w0
  /\ stdout w'
     = (stdout w0
        ++ [if is_ValueError e
            then "Error: There may be an issue with your consumer key or secret."
            else ("An error occurred during setup: " ++ exc_str e)%string])%list.
Proof.
  intros Hprompt Htoken. cbv zeta.
  destruct (configure_handshake _ _ _ _ _ _ Hprompt) as [-> <-].
  unfold try_except, oauth_handshake, exchange_tokens, bind, try_except_only, issue.
  fold (consumer_session ck cs). rewrite Htoken.
  destruct (is_ValueError e); cbn; repeat split; reflexivity.
Qed.

End Setup2.

Section Setup3.

Variable R : Remote.

Lemma exchange_tokens_session (ck cs : string) (w0 w1 : World)
    (access_token access_token_secret : option string) :
  exchange_tokens R ck cs w0 = (Ret (Some (access_token, access_token_secret)), w1) ->
  _oauth_session w1 = Some (new_session ck cs access_token access_token_secret).
Proof.
  unfold exchange_tokens, bind, try_except_only, issue, print, input, put_oauth_session, ret.
  cbn [fst snd stdin stdout trace set_trace set_stdout set_stdin].
  intros H. repeat case_match; simplify_eq; reflexivity.
Qed.

Lemma resolve_user_id_cached (username : string) (w : World) (s : OAuth1Session) :
  _oauth_session w = Some s ->
  trace (snd (resolve_user_id R username w))
  = (trace w ++ [GET s users_by [("usernames", PStr username)]])%list
  /\ _oauth_session (snd (resolve_user_id R username w)) = Some s.
Proof.
  intros Hs. destruct (session_ready_cached _ _ Hs) as (Hready & Hof & Hwith).
  pose proof (get_user_id_from_username_ready R username w Hready) as Hrun.
  unfold sent, lookup_call in Hrun. rewrite Hof, Hwith in Hrun.
  unfold resolve_user_id, try_except.
  destruct (get_user_id_from_username R username w) as [[id|e] wx].
  - injection Hrun as _ ->. cbn. auto.
  - injection Hrun as _ ->. cbn. auto.
Qed.

Lemma configure_after_resolve (w w0 w1 w2 : World) (username ck cs : string)
    (access_token access_token_secret : option string) (user_id : pyval) :
  prompt_credentials R w = (Ret (Some (username, ck, cs)), w0) ->
  exchange_tokens R ck cs w0 = (Ret (Some (access_token, access_token_secret)), w1) ->
  resolve_user_id R username w1 = (Ret user_id, w2) ->
  configure R w
  = try_except
      (save_credentials username user_id ck cs access_token access_token_secret;;;
       print "Twitter authentication successfully set up!";;;
       print "Your API keys, secrets, username, and user ID have been stored in the .env file.")
      setup_failed w2.
Proof.
  intros Hprompt Hexchange Hresolve.
  destruct (configure_handshake _ _ _ _ _ _ Hprompt) as [-> _].
  unfold try_except, oauth_handshake.
  rewrite (bind_Ret _ _ _ _ _ Hexchange), (bind_Ret _ _ _ _ _ Hresolve). reflexivity.
Qed.

(** X13.  As soon as the access token is obtained, configure replaces
    the cached session by the one built from the new credentials: the
    id of the user is looked up with that session, whatever the
    environment holds, and that session is the one cached when configure
    ends, also when the lookup fails or a write to '.env' raises. *)
Theorem configure_installs_session
    (w w0 w1 : World) (username ck cs : string)
    (access_token access_token_secret : option string) :
  prompt_credentials R w = (Ret (Some (username, ck, cs)), w0) ->
  exchange_tokens R ck cs w0 = (Ret (Some (access_token, access_token_secret)), w1) ->
  _oauth_session (snd (configure R w))
  = Some (new_session ck cs access_token access_token_secret)
  /\ trace (snd (configure R w))
     = (trace w1 ++ [GET (new_session ck cs access_token access_token_secret) users_by
                         [("usernames", PStr username)]])%list.
Proof.
  intros Hprompt Hexchange.
  pose proof (exchange_tokens_session _ _ _ _ _ _ Hexchange) as Hsession.
  destruct (resolve_user_id_returns R username w1) as (user_id & w2 & Hresolve & _).
  destruct (resolve_user_id_cached username w1 _ Hsession) as [Htrace Hcached].
  rewrite Hresolve in Htrace, Hcached. cbn [snd] in Htrace, Hcached.
  rewrite (configure_after_resolve _ _ _ _ _ _ _ _ _ _ Hprompt Hexchange Hresolve).
  split.
  - rewrite <- Hcached.
    assert (H : preserves _oauth_session
              (try_except
                 (save_credentials username user_id ck cs access_token access_token_secret;;;
                  print "Twitter authentication successfully set up!";;;
                  print "Your API keys, secrets, username, and user ID have been stored in the .env file.")
                 setup_failed))
      by (unfold save_credentials, setup_failed; frame).
    apply H.
  - rewrite <- Htrace.
    assert (H : preserves trace
              (try_except
                 (save_credentials username user_id ck cs access_token access_token_secret;;;
                  print "Twitter authentication successfully set up!";;;
                  print "Your API keys, secrets, username, and user ID have been stored in the .env file.")
                 setup_failed))
      by (unfold save_credentials, setup_failed; frame).
    apply H.
Qed.

End Setup3.

Section Store.

Variable R : Remote.

Lemma preserves_setting {A} (key : string) (m : M A) :
  keeps_dotenv m -> preserves (setting key) m.
Proof. intros H w. unfold setting. rewrite H. reflexivity. Qed.

Lemma set_key_other (key k : string) (value : pyval) :
  key <> k -> preserves (setting k) (set_key key value).
Proof.
  intros Hne w. destruct value; try reflexivity.
  unfold setting. cbn. rewrite lookup_insert_ne by exact Hne.
  destruct (dotenv w); reflexivity.
Qed.

Lemma save_credentials_other (k username ck cs : string) (user_id : pyval)
    (access_token access_token_secret : option string) :
  k ∉ credential_keys ->
  preserves (setting k)
    (save_credentials username user_id ck cs access_token access_token_secret).
Proof.
  unfold credential_keys. intros Hk.
  repeat (apply not_elem_of_cons in Hk; destruct Hk as [? Hk]).
  assert (Hwrites : preserves (setting k)
            (set_key "TWITTER_USERNAME" (PStr username);;;
             set_key "TWITTER_USER_ID" user_id;;;
             set_key "TWITTER_CONSUMER_KEY" (PStr ck);;;
             set_key "TWITTER_CONSUMER_SECRET" (PStr cs);;;
             set_key "TWITTER_ACCESS_TOKEN" (of_optional access_token);;;
             set_key "TWITTER_ACCESS_TOKEN_SECRET" (of_optional access_token_secret))).
  { repeat (apply preserves_bind; [|intros _]); apply set_key_other; congruence. }
  intros w. unfold save_credentials.
  rewrite (bind_Ret path_exists_dotenv _ w w (bool_decide (is_Some (dotenv w))) eq_refl).
  destruct (dotenv w) as [f|] eqn:Hfile.
  - rewrite bool_decide_eq_true_2 by eauto. cbn [negb].
    rewrite (bind_Ret (ret tt) _ w w tt eq_refl). apply Hwrites.
  - rewrite bool_decide_eq_false_2 by (intros [x Hx]; discriminate Hx). cbn [negb].
    rewrite (bind_Ret create_dotenv _ w (set_dotenv (Some ∅) w) tt eq_refl). rewrite Hwrites.
    unfold setting. cbn. rewrite Hfile. reflexivity.
Qed.

(** X14.  configure touches nothing in '.env' but its own six keys:
    whatever the run (success, abort, or a write that raises half way),
    every other key is bound after configure to what it was bound
    before. *)
Theorem configure_keeps_other_settings (k : string) (w : World) :
  k ∉ credential_keys ->
  setting k (snd (configure R w)) = setting k w.
Proof.
  intros Hk.
  pose proof (preserves_setting k _ (keeps_prompt_credentials R)) as Hprompt.
  pose proof (fun ck cs => preserves_setting k _ (keeps_exchange_tokens R ck cs)) as Hexchange.
  pose proof (fun u => preserves_setting k _ (keeps_resolve_user_id R u)) as Hresolve.
  pose proof (fun u id ck cs a s => save_credentials_other k u ck cs id a s Hk) as Hsave.
  assert (H : preserves (setting k) (configure R))
    by (unfold configure, oauth_handshake, setup_failed; frame).
  apply H.
Qed.

End Store.

(** ** More on the timeline join *)

Lemma user_entry_well_formed (user : pyval) (e : hkey * (pyval * pyval)) :
  user_entry user = Ret e -> well_formed_user user.
Proof.
  unfold user_entry, well_formed_user. intros H.
  destruct user as [| | | | |d]; try discriminate H. cbn in H.
  destruct (assoc "id" d) as [id|] eqn:Hid; [|discriminate H]. cbn in H.
  destruct (assoc "name" d) as [name|] eqn:Hname; [|discriminate H]. cbn in H.
  destruct (assoc "username" d) as [username|] eqn:Huser; [|discriminate H]. cbn in H.
  destruct (hash_key id) as [k|x] eqn:Hk; [|discriminate H].
  exists d, id, k, name, username. auto.
Qed.

Lemma add_author_same (user_dict : gmap hkey (pyval * pyval)) (tweet tweet' : pyval) :
  add_author user_dict tweet = Ret tweet' ->
  same_but_author tweet tweet' /\ well_formed_tweet tweet.
Proof.
  intros H. destruct (add_author_spec _ _ _ H) as (d & author_id & k & -> & Ha & Hk & ->).
  split.
  - eexists d, _. split; [reflexivity|]. split; [reflexivity|].
    intros key Hname Huser.
    rewrite assoc_dict_set_ne by congruence. rewrite assoc_dict_set_ne by congruence.
    reflexivity.
  - exists d, author_id, k. auto.
Qed.

Lemma join_authors_list (body v : pyval) (items : list pyval) :
  join_authors body = Ret v ->
  py_get body "data" (PList []) = Ret (PList items) ->
  exists users entries items',
    referenced_users body = Ret users
    /\ for_each user_entry users = Ret entries
    /\ v = PList items'
    /\ Forall2 (fun tweet tweet' =>
                  add_author (foldl record_entry ∅ entries) tweet = Ret tweet')
               items items'.
Proof.
  unfold join_authors, referenced_users. intros H Hdata. rewrite Hdata in H. cbn in H.
  destruct (py_get body "includes" (PDict [])) as [includes|e]; [|discriminate H].
  cbn in H |- *.
  destruct (py_get includes "users" (PList [])) as [user_info|e]; [|discriminate H].
  cbn in H |- *.
  destruct (py_iter user_info) as [users|e]; [|discriminate H]. cbn in H.
  destruct (build_user_dict users ∅) as [user_dict|e] eqn:Hdict; [|discriminate H].
  cbn in H. destruct (build_user_dict_fold _ _ _ Hdict) as (entries & Hentries & ->).
  destruct (for_each _ items) as [items'|e] eqn:Hloop; [|discriminate H]. cbn in H.
  injection H as <-. exists users, entries, items'.
  split; [reflexivity|]. split; [exact Hentries|]. split; [reflexivity|].
  apply for_each_Forall2, Hloop.
Qed.

Section TimelineMore.

Variable R : Remote.

Lemma read_timeline_returns_join (count : Z) (w w' : World) (v : pyval) :
  read_timeline R count w = (Ret v, w') ->
  exists uid response body,
    environ w !! "TWITTER_USER_ID" = Some uid
    /\ http R (trace w) (timeline_call uid count w) = Ret response
    /\ status_code response = 200
    /\ json response = Ret body
    /\ join_authors body = Ret v.
Proof.
  intros Hrun. pose proof (read_timeline_run R count w) as Hcases.
  destruct (environ w !! "TWITTER_USER_ID") as [uid|] eqn:Huid; [|congruence].
  destruct (String.eqb uid ""); [congruence|].
  destruct (session_ready w); [|congruence].
  rewrite Hcases in Hrun. injection Hrun as Hres _.
  unfold timeline_result in Hres.
  destruct (http R (trace w) (timeline_call uid count w)) as [response|e] eqn:Hhttp;
    [|discriminate Hres].
  cbn in Hres. destruct (status_code response =? 200) eqn:Hstatus; [|discriminate Hres].
  cbn in Hres. destruct (json response) as [body|e] eqn:Hjson; [|discriminate Hres].
  exists uid, response, body. apply Z.eqb_eq in Hstatus. auto.
Qed.

(** X16.  The join neither drops, adds nor reorders tweets: when the
    "data" of the body is a list, read_timeline returns a list of the
    same length whose i-th tweet is the i-th tweet of "data" with the two
    author fields set; every other field is as the platform sent it. *)
Theorem read_timeline_keeps_tweets (count : Z) (w w' : World) (v : pyval) :
  read_timeline R count w = (Ret v, w') ->
  exists uid response body,
    environ w !! "TWITTER_USER_ID" = Some uid
    /\ http R (trace w) (timeline_call uid count w) = Ret response
    /\ json response = Ret body
    /\ forall items,
         py_get body "data" (PList []) = Ret (PList items) ->
         exists items',
           v = PList items'
           /\ length items' = length items
           /\ forall i tweet tweet',
                items !! i = Some tweet -> items' !! i = Some tweet' ->
                same_but_author tweet tweet'.
Proof.
  intros Hrun.
  destruct (read_timeline_returns_join _ _ _ _ Hrun)
    as (uid & response & body & Huid & Hhttp & _ & Hjson & Hjoin).
  exists uid, response, body. do 3 (split; [assumption|]). intros items Hdata.
  destruct (join_authors_list _ _ _ Hjoin Hdata)
    as (users & entries & items' & _ & _ & -> & Hall).
  exists items'. split; [reflexivity|]. split.
  - symmetry. apply (Forall2_length _ _ _ Hall).
  - intros i tweet tweet' Hi Hi'.
    destruct (Forall2_lookup_l _ _ _ _ _ Hall Hi) as (t & Ht & Hadd).
    rewrite Hi' in Ht. injection Ht as <-.
    apply (add_author_same _ _ _ Hadd).
Qed.

(** X17.  The defaults of the join.  A body without "data" gives the
    empty list.  A body without "includes", or whose "includes" has no
    "users", gives back every tweet of its "data" list, and each with
    the author "Unknown" in both fields. *)
Theorem read_timeline_defaults (count : Z) (w w' : World) (v : pyval) :
  read_timeline R count w = (Ret v, w') ->
  exists uid response d,
    environ w !! "TWITTER_USER_ID" = Some uid
    /\ http R (trace w) (timeline_call uid count w) = Ret response
    /\ json response = Ret (PDict d)
    /\ (assoc "data" d = None -> v = PList [])
    /\ ((assoc "includes" d = None
         \/ exists includes, assoc "includes" d = Some (PDict includes)
                             /\ assoc "users" includes = None) ->
        forall items,
          assoc "data" d = Some (PList items) ->
          exists items',
            v = PList items'
            /\ length items' = length items
            /\ forall i tweet,
                 items !! i = Some tweet ->
                 exists tweet',
                   items' !! i = Some tweet'
                   /\ same_but_author tweet tweet'
                   /\ author_unknown tweet').
Proof.
  intros Hrun.
  destruct (read_timeline_returns_join _ _ _ _ Hrun)
    as (uid & response & body & Huid & Hhttp & _ & Hjson & Hjoin).
  destruct body as [| | | | |d]; try discriminate Hjoin.
  exists uid, response, d. do 3 (split; [assumption|]). split.
  - intros Hdata.
    destruct (join_authors_list (PDict d) v [] Hjoin)
      as (users & entries & items' & _ & _ & -> & Hall).
    + cbn. rewrite Hdata. reflexivity.
    + inversion Hall. reflexivity.
  - intros Hincludes items Hdata.
    destruct (join_authors_list (PDict d) v items Hjoin)
      as (users & entries & items' & Hu & He & -> & Hloop).
    { cbn. rewrite Hdata. reflexivity. }
    assert (Hnone : entries = []).
    { assert (Husers : users = []).
      { unfold referenced_users in Hu. cbn in Hu.
        destruct Hincludes as [Hi|(includes & Hi & Hus)]; rewrite Hi in Hu; cbn in Hu.
        - injection Hu as <-. reflexivity.
        - rewrite Hus in Hu. cbn in Hu. injection Hu as <-. reflexivity. }
      subst users. cbn in He. injection He as <-. reflexivity. }
    subst entries. exists items'. split; [reflexivity|]. split.
    + symmetry. apply (Forall2_length _ _ _ Hloop).
    + intros i tweet Hi.
      destruct (Forall2_lookup_l _ _ _ _ _ Hloop Hi) as (tweet' & Hi' & Hadd).
      exists tweet'. split; [exact Hi'|].
      split; [apply (add_author_same _ _ _ Hadd)|].
      destruct (add_author_spec _ _ _ Hadd) as (d0 & author_id & k & -> & _ & _ & ->).
      cbn [foldl]. rewrite lookup_empty. cbn [default unknown_author fst snd].
      destruct (returned_fields d0 (PStr "Unknown") (PStr "Unknown")) as (_ & Hname & Huser).
      split; assumption.
Qed.

(** X18.  The join is all or nothing: read_timeline returns only if
    every referenced user is a dict with a hashable "id", a "name" and a
    "username", and every tweet of a "data" list is a dict with a
    hashable "author_id".  One user without a name, referenced by a
    tweet or not, makes the whole call raise. *)
Theorem read_timeline_all_or_nothing (count : Z) (w w' : World) (v : pyval) :
  read_timeline R count w = (Ret v, w') ->
  exists uid response body users,
    environ w !! "TWITTER_USER_ID" = Some uid
    /\ http R (trace w) (timeline_call uid count w) = Ret response
    /\ json response = Ret body
    /\ referenced_users body = Ret users
    /\ Forall well_formed_user users
    /\ forall items,
         py_get body "data" (PList []) = Ret (PList items) ->
         Forall well_formed_tweet items.
Proof.
  intros Hrun.
  destruct (read_timeline_returns_join _ _ _ _ Hrun)
    as (uid & response & body & Huid & Hhttp & _ & Hjson & Hjoin).
  destruct (join_authors_spec _ _ Hjoin) as (tweets & users & entries & _ & Hu & He & _).
  exists uid, response, body, users. do 4 (split; [assumption|]). split.
  - apply for_each_Forall2 in He. apply Forall_forall. intros user Hin.
    apply list_elem_of_lookup in Hin as (i & Hi).
    destruct (Forall2_lookup_l _ _ _ _ _ He Hi) as (e & _ & Hentry).
    apply (user_entry_well_formed _ _ Hentry).
  - intros items Hdata.
    destruct (join_authors_list _ _ _ Hjoin Hdata)
      as (users' & entries' & items' & _ & _ & _ & Hall).
    apply Forall_forall. intros tweet Hin.
    apply list_elem_of_lookup in Hin as (i & Hi).
    destruct (Forall2_lookup_l _ _ _ _ _ Hall Hi) as (tweet' & _ & Hadd).
    apply (add_author_same _ _ _ Hadd).
Qed.

End TimelineMore.

(** ** More on the dispatch *)

Section DispatchMore.

Variable R : Remote.

Ltac handlers_frame action_name :=
  let Hin := fresh "Hin" in
  destruct (decide (action_name ∈ registered)) as [Hin|Hin];
  [ unfold registered in Hin; apply list_elem_of_In in Hin; unfold perform_action;
    destruct Hin as [<-|[<-|[<-|[<-|[]]]]];
    cbn [assoc actions String.eqb Ascii.eqb Bool.eqb func];
    unfold get_latest_tweets, get_user_id_from_username, post_tweet, read_timeline,
      like_tweet, _get_oauth; frame
  | unfold perform_action; rewrite (assoc_unregistered R _ Hin); frame ].

Lemma perform_action_keeps_dotenv (action_name : string) (kwargs : Kwargs) :
  preserves dotenv (perform_action R action_name kwargs).
Proof. handlers_frame action_name. Qed.

Lemma perform_action_keeps_stdin (action_name : string) (kwargs : Kwargs) :
  preserves stdin (perform_action R action_name kwargs).
Proof. handlers_frame action_name. Qed.

Lemma perform_action_keeps_stdout (action_name : string) (kwargs : Kwargs) :
  preserves stdout (perform_action R action_name kwargs).
Proof. handlers_frame action_name. Qed.

(** X19.  No action writes '.env', reads the console or prints:
    whatever the name and the arguments, perform_action leaves '.env',
    the pending input and the output as they were. *)
Theorem perform_action_stays_off_disk_and_console
    (action_name : string) (kwargs : Kwargs) (w : World) :
  dotenv (snd (perform_action R action_name kwargs w)) = dotenv w
  /\ stdin (snd (perform_action R action_name kwargs w)) = stdin w
  /\ stdout (snd (perform_action R action_name kwargs w)) = stdout w.
Proof.
  split; [|split].
  - apply perform_action_keeps_dotenv.
  - apply perform_action_keeps_stdin.
  - apply perform_action_keeps_stdout.
Qed.

(** X20.  The arguments of an action.  A missing required argument
    (message, tweet_id, username) is a TypeError raised before the
    handler runs, so the world is untouched.  A missing count is 10:
    that is what read-timeline then asks for, and get-latest-tweets
    after its lookup. *)
Theorem perform_action_arguments (kwargs : Kwargs) (w : World) :
  (kw_message kwargs = None ->
     exists text, perform_action R "post-tweet" kwargs w = (Raise (Exn TypeError_ text), w))
  /\ (kw_tweet_id kwargs = None ->
      exists text, perform_action R "like-tweet" kwargs w = (Raise (Exn TypeError_ text), w))
  /\ (kw_username kwargs = None ->
      exists text,
        perform_action R "get-latest-tweets" kwargs w = (Raise (Exn TypeError_ text), w))
  /\ (kw_count kwargs = None ->
      forall uid, environ w !! "TWITTER_USER_ID" = Some uid -> uid <> "" ->
      session_ready w = true ->
      trace (snd (perform_action R "read-timeline" kwargs w))
      = (trace w ++ [timeline_call uid 10 w])%list)
  /\ (kw_count kwargs = None ->
      forall username user_id w1,
        kw_username kwargs = Some username ->
        get_user_id_from_username R username w = (Ret user_id, w1) ->
        trace (snd (perform_action R "get-latest-tweets" kwargs w))
        = (trace w ++ [lookup_call username w; tweets_call user_id 10 w])%list).
Proof.
  split; [|split; [|split; [|split]]].
  - intros H. unfold perform_action. cbn. rewrite H. eexists. reflexivity.
  - intros H. unfold perform_action. cbn. rewrite H. eexists. reflexivity.
  - intros H. unfold perform_action. cbn. rewrite H. eexists. reflexivity.
  - intros Hcount uid Hid Hne Hready.
    change (perform_action R "read-timeline" kwargs w)
      with (read_timeline R (default 10 (kw_count kwargs)) w).
    rewrite Hcount. change (default 10 None) with 10.
    pose proof (read_timeline_run R 10 w) as Hrun.
    rewrite Hid, Hready in Hrun. apply String.eqb_neq in Hne. rewrite Hne in Hrun.
    rewrite Hrun. reflexivity.
  - intros Hcount username user_id w1 Huser Hlookup.
    change (perform_action R "get-latest-tweets" kwargs w)
      with (match kw_username kwargs with
            | Some username => get_latest_tweets R username (default 10 (kw_count kwargs))
            | None => raise (missing_argument "get_latest_tweets" "username")
            end w).
    rewrite Huser, Hcount. change (default 10 None) with 10.
    destruct (get_latest_tweets_trace R username 10 w)
      as [(Hr & _ & _) | [(_ & _ & (e & He) & _) | (_ & id & Hid & Ht)]].
    + rewrite (proj1 (get_user_id_from_username_run R username w) Hr) in Hlookup.
      discriminate Hlookup.
    + rewrite Hlookup in He. discriminate He.
    + rewrite Hlookup in Hid. injection Hid as <-. exact Ht.
Qed.

End DispatchMore.

(** ** The further properties on explicit runs *)

Import Scenario.

Lemma _get_oauth_builds_once_witness :
  _get_oauth (set_dotenv None (set_environ ∅ (snd (_get_oauth with_secrets))))
  = (Ret (session_of with_secrets),
     set_dotenv None (set_environ ∅ (snd (_get_oauth with_secrets)))).
Proof.
  refine (proj2 (_get_oauth_builds_once with_secrets _ _ _) ∅ None).
  vm_compute. reflexivity.
Defined.

Lemma _get_oauth_stays_local_witness :
  missing_credentials = missing_credentials
  /\ _oauth_session (snd (_get_oauth (fresh []))) = None
  /\ environ (snd (_get_oauth (fresh []))) = effective_environ (fresh []).
Proof.
  apply (proj2 (proj2 (proj2 (proj2 (_get_oauth_stays_local (fresh [])))))).
  vm_compute. reflexivity.
Defined.

Lemma get_user_id_from_username_answer_witness :
  fst (get_user_id_from_username platform "alice" configured) = Ret (PStr "42").
Proof.
  destruct (get_user_id_from_username_answer platform "alice" configured
              {| status_code := 200; text := "OK"; json := Ret user_lookup |})
    as (_ & _ & Hfirst).
  - vm_compute. reflexivity.
  - reflexivity.
  - apply (Hfirst [("data", PList [PDict [("id", PStr "42"); ("name", PStr "Alice");
                                          ("username", PStr "alice")]])]
                  [("id", PStr "42"); ("name", PStr "Alice"); ("username", PStr "alice")]
                  [] (PStr "42")); reflexivity.
Defined.

Lemma get_latest_tweets_wraps_lookup_failure_witness :
  fst (get_latest_tweets platform "alice" 5 (fresh []))
  = Raise (lookup_failed "alice" missing_credentials)
  /\ trace (snd (get_latest_tweets platform "alice" 5 (fresh []))) = trace (fresh []).
Proof.
  apply (proj2 (get_latest_tweets_wraps_lookup_failure platform "alice" 5 (fresh []))).
  vm_compute. reflexivity.
Defined.

Lemma get_latest_tweets_answer_witness :
  fst (get_latest_tweets platform "alice" 200 configured)
  = Ret (PList [PDict [("id", PStr "7")]]).
Proof.
  destruct (get_latest_tweets_answer platform "alice" 200 configured
              (snd (get_user_id_from_username platform "alice" configured)) (PStr "42")
              {| status_code := 200; text := "OK";
                 json := Ret (PDict [("data", PList [PDict [("id", PStr "7")]])]) |})
    as [_ Hdata].
  - vm_compute. reflexivity.
  - vm_compute. reflexivity.
  - apply (Hdata [("data", PList [PDict [("id", PStr "7")]])]); reflexivity.
Defined.

Lemma like_tweet_spec_witness :
  trace (snd (like_tweet platform "7" configured)) = [like_call "42" "7" configured]
  /\ fst (like_tweet platform "7" configured)
     = Ret (PDict [("data", PDict [("liked", PBool true)])]).
Proof.
  destruct (like_tweet_spec platform "7" "42" configured) as [Hready _].
  - vm_compute. reflexivity.
  - intros H. discriminate H.
  - destruct Hready as [Htrace Hresult]; [vm_compute; reflexivity|].
    split; [exact Htrace|].
    apply (Hresult {| status_code := 200; text := "OK";
                      json := Ret (PDict [("data", PDict [("liked", PBool true)])]) |}).
    reflexivity.
Defined.

Lemma user_id_is_read_before_dotenv_witness :
  setting "TWITTER_USER_ID" after_setup = Some "42"
  /\ read_timeline platform 10 after_setup = (Raise missing_user_id, after_setup)
  /\ like_tweet platform "7" after_setup = (Raise missing_user_id, after_setup).
Proof.
  split; [vm_compute; reflexivity|].
  destruct (user_id_is_read_before_dotenv platform after_setup) as [Hread Hlike].
  - left. vm_compute. reflexivity.
  - split; [apply Hread|apply Hlike].
Defined.

Lemma is_configured_prepares_calls_witness :
  session_ready checked = true
  /\ exists uid,
       environ checked !! "TWITTER_USER_ID" = Some uid /\ uid <> ""
       /\ (forall count,
             trace (snd (read_timeline platform count checked))
             = (trace checked ++ [timeline_call uid count checked])%list)
       /\ (forall tweet_id,
             trace (snd (like_tweet platform tweet_id checked))
             = (trace checked ++ [like_call uid tweet_id checked])%list).
Proof.
  apply (is_configured_prepares_calls platform false after_setup checked).
  vm_compute. reflexivity.
Defined.

Lemma is_configured_only_looks_witness :
  stdout (snd (is_configured platform false configured)) = stdout configured
  /\ environ (snd (is_configured platform false after_setup))
     = effective_environ after_setup
  /\ trace (snd (is_configured platform false after_setup))
     = (trace after_setup ++ [validation_call after_setup])%list.
Proof.
  split; [|split].
  - apply (proj1 (proj2 (proj2 (proj2 (is_configured_only_looks platform false configured))))).
    reflexivity.
  - apply (proj2 (proj2 (proj2 (proj2 (proj2 (proj2
             (is_configured_only_looks platform false after_setup))))))).
    eexists. reflexivity.
  - apply (proj1 (proj2 (proj2 (proj2 (proj2
             (is_configured_only_looks platform false after_setup)))))).
    + eexists. reflexivity.
    + vm_compute. reflexivity.
Defined.

Lemma configure_declined_keeps_everything_witness :
  fst (configure platform asked_again) = Ret tt
  /\ dotenv (snd (configure platform asked_again)) = dotenv asked_again
  /\ _oauth_session (snd (configure platform asked_again)) = _oauth_session asked_again
  /\ stdin (snd (configure platform asked_again)) = []
  /\ trace (snd (configure platform asked_again))
     = (trace asked_again ++ [validation_call asked_again])%list.
Proof.
  apply (configure_declined_keeps_everything platform asked_again "n" []).
  - eexists. reflexivity.
  - vm_compute. reflexivity.
  - reflexivity.
  - reflexivity.
  - vm_compute. intros H. discriminate H.
Defined.

Lemma configure_request_token_failure_witness :
  (fst (configure platform_rejecting (fresh typed)) = Ret tt
   /\ stdin (snd (configure platform_rejecting (fresh typed))) = ["1234"]
   /\ last (stdout (snd (configure platform_rejecting (fresh typed))))
      = Some "Error: There may be an issue with your consumer key or secret.")
  /\ last (stdout (snd (configure platform_offline (fresh typed))))
     = Some "An error occurred during setup: Connection refused".
Proof.
  split.
  - pose proof (configure_request_token_failure platform_rejecting (fresh typed)
                  (snd (prompt_credentials platform_rejecting (fresh typed)))
                  "alice" "ck" "cs"
                  (Exn (Other "TokenRequestDenied" true) "Token request failed with code 401"))
      as H.
    cbv zeta in H. destruct H as (Hret & _ & Hstdin & _ & _ & Hout).
    + vm_compute. reflexivity.
    + reflexivity.
    + split; [exact Hret|]. split.
      * rewrite Hstdin. vm_compute. reflexivity.
      * rewrite Hout. rewrite last_snoc. reflexivity.
  - pose proof (configure_request_token_failure platform_offline (fresh typed)
                  (snd (prompt_credentials platform_offline (fresh typed)))
                  "alice" "ck" "cs"
                  (Exn (Other "ConnectionError" false) "Connection refused"))
      as H.
    cbv zeta in H. destruct H as (_ & _ & _ & _ & _ & Hout).
    + vm_compute. reflexivity.
    + reflexivity.
    + rewrite Hout. rewrite last_snoc. reflexivity.
Defined.

Lemma configure_installs_session_witness :
  _oauth_session (snd (configure platform_without_user (fresh typed)))
  = Some (new_session "ck" "cs" (Some "at") (Some "ats")).
Proof.
  apply (proj1 (configure_installs_session platform_without_user (fresh typed)
                  (snd (prompt_credentials platform_without_user (fresh typed)))
                  (snd (exchange_tokens platform_without_user "ck" "cs"
                          (snd (prompt_credentials platform_without_user (fresh typed)))))
                  "alice" "ck" "cs" (Some "at") (Some "ats")
                  ltac:(vm_compute; reflexivity) ltac:(vm_compute; reflexivity))).
Defined.

Lemma configure_keeps_other_settings_witness :
  setting "OPENAI_API_KEY" (snd (configure platform other_setting)) = Some "sk".
Proof.
  rewrite (configure_keeps_other_settings platform "OPENAI_API_KEY" other_setting).
  - reflexivity.
  - unfold credential_keys. intros Hin. apply list_elem_of_In in Hin.
    repeat (destruct Hin as [Hin|Hin]; [discriminate Hin|]). destruct Hin.
Defined.

Lemma read_timeline_keeps_tweets_witness :
  exists items',
    joined_timeline = PList items' /\ length items' = 2%nat
    /\ forall tweet', items' !! 1%nat = Some tweet' ->
         same_but_author (PDict [("id", PStr "8"); ("author_id", PStr "99")]) tweet'.
Proof.
  destruct (read_timeline_keeps_tweets platform 200 configured
              (snd (read_timeline platform 200 configured)) joined_timeline)
    as (uid & response & body & Huid & Hhttp & Hjson & Hitems).
  - vm_compute. reflexivity.
  - vm_compute in Huid. injection Huid as <-.
    vm_compute in Hhttp. injection Hhttp as <-.
    vm_compute in Hjson. injection Hjson as <-.
    destruct (Hitems [PDict [("id", PStr "7"); ("author_id", PStr "42")];
                      PDict [("id", PStr "8"); ("author_id", PStr "99")]] eq_refl)
      as (items' & Hv & Hlen & Hsame).
    exists items'. split; [exact Hv|]. split; [exact Hlen|].
    intros tweet' Hi. apply (Hsame 1%nat _ _ eq_refl Hi).
Defined.

Lemma read_timeline_defaults_witness :
  exists tweet',
    fst (read_timeline platform_bare 10 configured) = Ret (PList [tweet'])
    /\ author_unknown tweet'.
Proof.
  destruct (read_timeline_defaults platform_bare 10 configured
              (snd (read_timeline platform_bare 10 configured))
              (PList [PDict [("id", PStr "7"); ("author_id", PStr "42");
                             ("author_name", PStr "Unknown");
                             ("author_username", PStr "Unknown")]]))
    as (uid & response & d & Huid & Hhttp & Hjson & _ & Hunknown).
  - vm_compute. reflexivity.
  - vm_compute in Huid. injection Huid as <-.
    vm_compute in Hhttp. injection Hhttp as <-.
    vm_compute in Hjson. injection Hjson as <-.
    destruct (Hunknown (or_introl eq_refl)
                       [PDict [("id", PStr "7"); ("author_id", PStr "42")]] eq_refl)
      as (items' & Hv & Hlen & Heach).
    destruct items' as [|tweet' [|other rest]]; try discriminate Hlen.
    destruct (Heach 0%nat _ eq_refl) as (t & Ht & _ & Hauthor).
    injection Ht as <-. exists tweet'. split; [|exact Hauthor].
    rewrite <- Hv. vm_compute. reflexivity.
Defined.

Lemma read_timeline_all_or_nothing_witness :
  well_formed_user (PDict [("id", PStr "42"); ("name", PStr "Alice");
                           ("username", PStr "alice")]).
Proof.
  destruct (read_timeline_all_or_nothing platform 200 configured
              (snd (read_timeline platform 200 configured)) joined_timeline)
    as (uid & response & body & users & Huid & Hhttp & Hjson & Hu & Husers & _).
  - vm_compute. reflexivity.
  - vm_compute in Huid. injection Huid as <-.
    vm_compute in Hhttp. injection Hhttp as <-.
    vm_compute in Hjson. injection Hjson as <-.
    vm_compute in Hu. injection Hu as <-.
    apply (Forall_inv Husers).
Defined.

Lemma perform_action_arguments_witness :
  (exists text,
      perform_action platform "post-tweet" no_kwargs (fresh [])
      = (Raise (Exn TypeError_ text), fresh []))
  /\ trace (snd (perform_action platform "read-timeline" no_kwargs configured))
     = (trace configured ++ [timeline_call "42" 10 configured])%list.
Proof.
  split.
  - apply (proj1 (perform_action_arguments platform no_kwargs (fresh []))). reflexivity.
  - apply (proj1 (proj2 (proj2 (proj2 (perform_action_arguments platform no_kwargs
                                                                configured))))).
    + reflexivity.
    + vm_compute. reflexivity.
    + intros H. discriminate H.
    + vm_compute. reflexivity.
Defined.

(** ** What the outcome of a call depends on *)

Lemma same_session (w w' : World) :
  _oauth_session w' = _oauth_session w ->
  stored_secrets w' = stored_secrets w ->
  session_ready w' = session_ready w /\ session_of w' = session_of w.
Proof.
  intros Hsession Hsecrets. unfold session_ready, session_of. rewrite Hsession.
  destruct (_oauth_session w); [auto|]. rewrite Hsecrets. split; [reflexivity|].
  cbn. unfold stored_secrets in Hsecrets. unfold session_from_environment. congruence.
Qed.

Section Outcome.

Variable R : Remote.

Lemma get_latest_tweets_run (username : string) (count : Z) (w : World) :
  get_latest_tweets R username count w
  = if session_ready w
    then match lookup_result username (http R (trace w) (lookup_call username w)) with
         | Ret user_id =>
             (tweets_result (http R (trace w ++ [lookup_call username w])
                                  (tweets_call user_id count w)),
              sent (tweets_call user_id count w) (sent (lookup_call username w) w))
         | Raise e => (Raise (lookup_failed username e), sent (lookup_call username w) w)
         end
    else (Raise (lookup_failed username missing_credentials), loaded w).
Proof.
  unfold get_latest_tweets, bind, try_except.
  destruct (session_ready w) eqn:Hready.
  - rewrite (get_user_id_from_username_ready R username w Hready).
    fold (lookup_result username (http R (trace w) (lookup_call username w))).
    destruct (lookup_result username _) as [user_id|e]; [|reflexivity].
    destruct (session_ready_sent (lookup_call username w) w) as (Hr & Hs & Hw).
    rewrite (_get_oauth_ready _ Hr), Hs, Hw. unfold issue. cbn [fst snd].
    fold (user_tweets_params count). fold (tweets_call user_id count w).
    rewrite trace_sent. unfold tweets_result.
    assert (Hsent : sent (tweets_call user_id count w) (sent (lookup_call username w) w)
                    = set_trace ((trace w ++ [lookup_call username w])
                                 ++ [tweets_call user_id count w])
                                (sent (lookup_call username w) w)).
    { unfold sent at 1. rewrite Hw, trace_sent. reflexivity. }
    rewrite Hsent.
    destruct (http R _ (tweets_call user_id count w)) as [response|e]; [|reflexivity].
    cbn [rbind]. destruct (negb (status_code response =? 200)); [reflexivity|].
    unfold lift at 1. destruct (json response) as [body|e]; reflexivity.
  - rewrite (proj1 (get_user_id_from_username_run R username w) Hready). reflexivity.
Qed.

Lemma post_tweet_run (message : string) (w : World) :
  post_tweet R message w
  = if (280 <? len message)%nat
    then (Raise (Exn ValueError_ "Tweet exceeds 280 character limit"), w)
    else if session_ready w
         then (response <~ http R (trace w)
                                (POST (session_of w) tweets (PDict [("text", PStr message)]));;
               if negb (status_code response =? 201) then Raise (request_error response)
               else json response,
               sent (POST (session_of w) tweets (PDict [("text", PStr message)])) w)
         else (Raise missing_credentials, loaded w).
Proof.
  unfold post_tweet, bind. destruct (280 <? len message)%nat; [reflexivity|].
  destruct (session_ready w) eqn:Hready.
  - rewrite (_get_oauth_ready w Hready). unfold issue, sent. cbn [fst snd].
    rewrite trace_with_session.
    destruct (http R (trace w) _) as [response|e]; [|reflexivity].
    cbn [rbind]. destruct (negb (status_code response =? 201)); reflexivity.
  - rewrite (_get_oauth_not_ready w Hready). reflexivity.
Qed.

Lemma outcome_same_credentials (w w' : World) :
  session_ready w' = session_ready w -> session_of w' = session_of w ->
  trace w' = trace w ->
  (forall username count,
      outcome (get_latest_tweets R username count) w'
      = outcome (get_latest_tweets R username count) w)
  /\ (forall message, outcome (post_tweet R message) w' = outcome (post_tweet R message) w)
  /\ (environ w' !! "TWITTER_USER_ID" = environ w !! "TWITTER_USER_ID" ->
      (forall count, outcome (read_timeline R count) w' = outcome (read_timeline R count) w)
      /\ (forall tweet_id,
            outcome (like_tweet R tweet_id) w' = outcome (like_tweet R tweet_id) w)).
Proof.
  intros Hready Hsession Htrace. split; [|split].
  - intros username count. unfold outcome. rewrite !get_latest_tweets_run.
    unfold tweets_call, lookup_call. rewrite Hready, Hsession, Htrace.
    destruct (session_ready w); [|cbn; rewrite !trace_loaded, Htrace; reflexivity].
    destruct (lookup_result username _) as [user_id|e]; cbn; rewrite Htrace; reflexivity.
  - intros message. unfold outcome. rewrite !post_tweet_run.
    rewrite Hready, Hsession, Htrace.
    destruct (280 <? len message)%nat; [cbn; rewrite Htrace; reflexivity|].
    destruct (session_ready w); cbn; rewrite ?trace_loaded, Htrace; reflexivity.
  - intros Hid. split.
    + intros count. unfold outcome.
      pose proof (read_timeline_run R count w) as Hw.
      pose proof (read_timeline_run R count w') as Hw'.
      rewrite Hid, Hready in Hw'. unfold timeline_call in *. rewrite Hsession, Htrace in Hw'.
      destruct (environ w !! "TWITTER_USER_ID") as [uid|];
        [|rewrite Hw, Hw'; cbn; rewrite Htrace; reflexivity].
      destruct (String.eqb uid ""); [rewrite Hw, Hw'; cbn; rewrite Htrace; reflexivity|].
      destruct (session_ready w); rewrite Hw, Hw'; cbn;
        rewrite ?trace_loaded, Htrace; reflexivity.
    + intros tweet_id. unfold outcome.
      pose proof (like_tweet_run R tweet_id w) as Hw.
      pose proof (like_tweet_run R tweet_id w') as Hw'.
      rewrite Hid, Hready in Hw'. unfold like_call in *. rewrite Hsession, Htrace in Hw'.
      destruct (environ w !! "TWITTER_USER_ID") as [uid|];
        [|rewrite Hw, Hw'; cbn; rewrite Htrace; reflexivity].
      destruct (String.eqb uid ""); [rewrite Hw, Hw'; cbn; rewrite Htrace; reflexivity|].
      destruct (session_ready w); rewrite Hw, Hw'; cbn;
        rewrite ?trace_loaded, Htrace; reflexivity.
Qed.

(** C2 (amended).  An authenticated call returns only if a session is
    already cached or the four secrets (consumer key, consumer secret,
    access token, access token secret) are present and non-empty in the
    environment as load_dotenv completes it; read_timeline and like_tweet
    need in addition a non-empty TWITTER_USER_ID in os.environ.  Nothing
    else of the credentials matters: two worlds with the same cached
    session, the same four secrets and the same calls behind them give
    every call the same result and the same requests, provided, for
    read_timeline and like_tweet, that os.environ has the same user id.
    So no call needs the username, and get_latest_tweets and post_tweet
    do not need the user id. *)
Theorem authenticated_call_needs_secrets (w : World) :
  (forall username count v w',
      get_latest_tweets R username count w = (Ret v, w') ->
      is_Some (_oauth_session w) \/ Forall present (stored_secrets w))
  /\ (forall message v w',
        post_tweet R message w = (Ret v, w') ->
        is_Some (_oauth_session w) \/ Forall present (stored_secrets w))
  /\ (forall count v w',
        read_timeline R count w = (Ret v, w') ->
        (is_Some (_oauth_session w) \/ Forall present (stored_secrets w))
        /\ present (environ w !! "TWITTER_USER_ID"))
  /\ (forall tweet_id v w',
        like_tweet R tweet_id w = (Ret v, w') ->
        (is_Some (_oauth_session w) \/ Forall present (stored_secrets w))
        /\ present (environ w !! "TWITTER_USER_ID"))
  /\ (forall w',
        _oauth_session w' = _oauth_session w ->
        stored_secrets w' = stored_secrets w ->
        trace w' = trace w ->
        (forall username count,
            outcome (get_latest_tweets R username count) w'
            = outcome (get_latest_tweets R username count) w)
        /\ (forall message,
              outcome (post_tweet R message) w' = outcome (post_tweet R message) w)
        /\ (environ w' !! "TWITTER_USER_ID" = environ w !! "TWITTER_USER_ID" ->
            (forall count,
                outcome (read_timeline R count) w' = outcome (read_timeline R count) w)
            /\ (forall tweet_id,
                  outcome (like_tweet R tweet_id) w' = outcome (like_tweet R tweet_id) w))).
Proof.
  split; [|split; [|split; [|split]]].
  - intros username count v w' Hrun. apply session_ready_secrets.
    destruct (get_latest_tweets_trace R username count w)
      as [(_ & (e & He) & _) | [(Hr & _) | (Hr & _)]]; try exact Hr.
    rewrite Hrun in He. discriminate He.
  - intros message v w' Hrun. apply session_ready_secrets.
    destruct (session_ready w) eqn:Hready; [reflexivity|].
    destruct (post_tweet_not_ready R message w Hready) as (e & w1 & He). congruence.
  - intros count v w' Hrun.
    destruct (read_timeline_returns _ _ _ _ _ Hrun) as [Hid Hready].
    split; [apply session_ready_secrets, Hready|exact Hid].
  - intros tweet_id v w' Hrun.
    destruct (like_tweet_returns _ _ _ _ _ Hrun) as [Hid Hready].
    split; [apply session_ready_secrets, Hready|exact Hid].
  - intros w' Hsession Hsecrets Htrace.
    destruct (same_session w w' Hsession Hsecrets) as [Hready Hof].
    apply outcome_same_credentials; assumption.
Qed.

End Outcome.

Lemma authenticated_call_needs_secrets_witness :
  (is_Some (_oauth_session with_secrets) \/ Forall present (stored_secrets with_secrets))
  /\ present (environ configured !! "TWITTER_USER_ID")
  /\ outcome (get_latest_tweets platform "alice" 5) with_secrets
     = outcome (get_latest_tweets platform "alice" 5) after_setup
  /\ fst (outcome (get_latest_tweets platform "alice" 5) with_secrets)
     = Ret (PList [PDict [("id", PStr "7")]]).
Proof.
  split; [|split; [|split]].
  - apply (proj1 (proj2 (authenticated_call_needs_secrets platform with_secrets))
             "hello" created (snd (post_tweet platform "hello" with_secrets))).
    vm_compute. reflexivity.
  - apply (proj1 (proj2 (proj2 (authenticated_call_needs_secrets platform configured)))
             200 joined_timeline (snd (read_timeline platform 200 configured))).
    vm_compute. reflexivity.
  - apply (proj2 (proj2 (proj2 (proj2
             (authenticated_call_needs_secrets platform after_setup)))) with_secrets);
      vm_compute; reflexivity.
  - vm_compute. reflexivity.
Defined.

(** ** The join, tweet by tweet *)

Section TimelineJoin.

Variable R : Remote.


End TimelineJoin.


(** ** The fallback without a token secret *)

(** Against C8 as stated: the id lookup fails and the username is taken
    as the user id, but the access-token response carried no
    oauth_token_secret.  configure returns, five fields are in '.env',
    the user id among them and equal to the username, and the sixth is
    not. *)
Lemma configure_fallback_without_secret :
  fst (exchange_tokens platform_without_user_or_secret "ck" "cs" fallback_prompted)
  = Ret (Some (Some "at", None))
  /\ fst (get_user_id_from_username platform_without_user_or_secret "alice"
            fallback_exchanged)
     = Raise (request_error {| status_code := 404; text := "Not Found";
                               json := Ret (PDict []) |})
  /\ fst (configure platform_without_user_or_secret (fresh typed)) = Ret tt
  /\ setting "TWITTER_USERNAME" fallback_run = Some "alice"
  /\ setting "TWITTER_USER_ID" fallback_run = Some "alice"
  /\ setting "TWITTER_CONSUMER_KEY" fallback_run = Some "ck"
  /\ setting "TWITTER_CONSUMER_SECRET" fallback_run = Some "cs"
  /\ setting "TWITTER_ACCESS_TOKEN" fallback_run = Some "at"
  /\ setting "TWITTER_ACCESS_TOKEN_SECRET" fallback_run = None.
Proof. do 8 (split; [vm_compute; reflexivity|]). vm_compute. reflexivity. Qed.

(** ** is_configured on a console that cannot encode every text *)

Section OnConsole.

Variable R : Remote.



End OnConsole.

(** C6.  is_configured can raise.  With '.env' present, the five fields
    set, a validation call that fails and verbose on, the handler of
    line 283 prints a line that opens with U+274C; on a console whose
    encoding is ASCII that print raises UnicodeEncodeError from inside
    the handler, and the exception leaves is_configured.  The same call
    with verbose off, or on a UTF-8 console, returns False. *)
Theorem is_configured_raises_on_ascii_console :
  dotenv configured = Some ∅
  /\ all (required_fields configured) = true
  /\ tweepy_get_me platform_unauthorized (trace configured) (validation_call configured)
     = Raise (Exn (Other "Unauthorized" false) "401 Unauthorized")
  /\ fst (Console.is_configured ascii_console platform_unauthorized true configured)
     = Raise (Console.UnicodeEncodeError
                "'ascii' codec can't encode character '\u274c' in position 0: ordinal not in range(128)")
  /\ fst (Console.is_configured ascii_console platform_unauthorized false configured)
     = Ret false
  /\ fst (Console.is_configured utf8_console platform_unauthorized true configured)
     = Ret false.
Proof. do 5 (split; [vm_compute; reflexivity|]). vm_compute. reflexivity. Qed.


